(** * crcwc_to_sb: Core Research Center well catalog to ScienceBase items

    A shallow embedding of [crcwc_to_sb.py].  Python values are an
    inductive type of JSON-like data, dictionaries are association lists in
    insertion order (the order [json.dumps] prints them in), exceptions are
    the left summand of a sum type, and the three HTTP requests of the script
    are answered by functions of the URL while every request is appended to a
    log.

    Strings are [String.string]: a character is a code point below 256.
    [capitalize] follows the case mappings of these code points; the capitals
    of the micro sign (181) and of y with diaeresis (255) lie above 255, and
    [capital_in_range] tells the strings that do not start with one of the
    two. *)

From Stdlib Require Import String Ascii List ZArith Bool Lia.
From Stdlib Require Import DecimalString.
From Stdlib Require Import Floats.SpecFloat.
Import ListNotations.

Set Warnings "-register-all".

Open Scope string_scope.
Open Scope list_scope.

Infix "+++" := String.append (right associativity, at level 60).

(** ** Python values *)

(** A Python [float] is an IEEE 754 binary value. *)
Definition pyfloat := spec_float.

Inductive pyval :=
| PNone
| PBool (b : bool)
| PInt (z : Z)
| PFloat (f : pyfloat)
| PStr (s : string)
| PList (l : list pyval)
| PDict (d : list (string * pyval)).

(** The exceptions the script can raise.  [HTTPError] stands for whatever
    [requests.get] or [.json()] raises on a failed request or body. *)
Inductive exn :=
| KeyError
| TypeError
| AttributeError
| IndexError
| ValueError
| UnboundLocalError
| HTTPError.

Definition result (A : Type) : Type := (exn + A)%type.

Definition ok {A} (a : A) : result A := inr a.
Definition raise {A} (e : exn) : result A := inl e.

Definition rbind {A B} (m : result A) (k : A -> result B) : result B :=
  match m with
  | inl e => inl e
  | inr a => k a
  end.

Declare Scope result_scope.
Delimit Scope result_scope with res.
Notation "x <- m ;; k" := (rbind m (fun x => k))
  (at level 61, m at next level, right associativity) : result_scope.

(** Left-to-right evaluation of a comprehension or loop body over a list. *)
Fixpoint rmap {A B} (f : A -> result B) (l : list A) : result (list B) :=
  match l with
  | [] => ok []
  | a :: l' =>
      (b <- f a ;;
       bs <- rmap f l' ;;
       ok (b :: bs))%res
  end.

(** ** Strings *)

Fixpoint join (sep : string) (l : list string) : string :=
  match l with
  | [] => ""
  | [s] => s
  | s :: l' => s +++ sep +++ join sep l'
  end.

(** [s.split(c)] for a one-character separator: the pieces between the
    occurrences of [c]; never an empty list. *)
Fixpoint split (c : ascii) (s : string) : list string :=
  match s with
  | EmptyString => [""]
  | String a s' =>
      if Ascii.eqb a c then "" :: split c s'
      else match split c s' with
           | [] => [String a ""]
           | p :: ps => String a p :: ps
           end
  end.

(** [s[0:n]] on a string. *)
Fixpoint prefix_chars (n : nat) (s : string) : string :=
  match n, s with
  | O, _ => ""
  | _, EmptyString => ""
  | S n', String a s' => String a (prefix_chars n' s')
  end.

(** The lower-case letters whose capital is 32 code points below them: a to
    z, and a with grave (224) to thorn (254) without the division sign. *)
Definition is_lower (a : ascii) : bool :=
  let n := nat_of_ascii a in
  ((97 <=? n) && (n <=? 122))%nat
  || ((224 <=? n) && (n <=? 254) && negb (n =? 247))%nat.

(** The capital letters: A to Z, and A with grave (192) to Thorn (222)
    without the multiplication sign. *)
Definition is_upper (a : ascii) : bool :=
  let n := nat_of_ascii a in
  ((65 <=? n) && (n <=? 90))%nat
  || ((192 <=? n) && (n <=? 222) && negb (n =? 215))%nat.

Definition upper_char (a : ascii) : ascii :=
  if is_lower a then ascii_of_nat (nat_of_ascii a - 32) else a.

Definition lower_char (a : ascii) : ascii :=
  if is_upper a then ascii_of_nat (nat_of_ascii a + 32) else a.

Fixpoint lower (s : string) : string :=
  match s with
  | EmptyString => ""
  | String a s' => String (lower_char a) (lower s')
  end.

(** The title case of a first character: its capital, and [Ss] for the
    sharp s (223). *)
Definition title_case (a : ascii) : string :=
  if (nat_of_ascii a =? 223)%nat then "Ss" else String (upper_char a) "".

(** [s.capitalize()]: first character title case, the rest lower case. *)
Definition capitalize (s : string) : string :=
  match s with
  | EmptyString => ""
  | String a s' => title_case a +++ lower s'
  end.


Definition hex_digit (n : nat) : ascii :=
  if (n <? 10)%nat then ascii_of_nat (48 + n) else ascii_of_nat (87 + n).

Definition hex2 (a : ascii) : string :=
  let n := nat_of_ascii a in
  String (hex_digit (n / 16)) (String (hex_digit (n mod 16)) "").

Definition str_of_Z (z : Z) : string :=
  NilZero.string_of_int (Z.to_int z).

Fixpoint string_mem (c : ascii) (s : string) : bool :=
  match s with
  | EmptyString => false
  | String a s' => Ascii.eqb a c || string_mem c s'
  end.

(** [t] occurs in [s] as a contiguous substring. *)
Definition Contains (t s : string) : Prop :=
  exists pre post, s = pre +++ t +++ post.


(** ** Dictionaries *)

(** A [dict] keeps its keys in insertion order; assigning to a key that is
    present replaces the value where it stands. *)
Fixpoint dict_get {A} (k : string) (d : list (string * A)) : option A :=
  match d with
  | [] => None
  | (k', v) :: d' => if String.eqb k' k then Some v else dict_get k d'
  end.

Fixpoint dict_set {A} (k : string) (v : A) (d : list (string * A))
  : list (string * A) :=
  match d with
  | [] => [(k, v)]
  | (k', v') :: d' =>
      if String.eqb k' k then (k, v) :: d' else (k', v') :: dict_set k v d'
  end.

Definition dict_keys {A} (d : list (string * A)) : list string := map fst d.

Definition dict_has {A} (k : string) (d : list (string * A)) : bool :=
  match dict_get k d with
  | Some _ => true
  | None => false
  end.

(** ** Operations of the language on values *)

Definition is_none (v : pyval) : bool :=
  match v with
  | PNone => true
  | _ => false
  end.

(** [isinstance(v, float)] *)
Definition is_float (v : pyval) : bool :=
  match v with
  | PFloat _ => true
  | _ => false
  end.

(** [v[k]] for a string [k]. *)
Definition getitem (v : pyval) (k : string) : result pyval :=
  match v with
  | PDict d =>
      match dict_get k d with
      | Some x => ok x
      | None => raise KeyError
      end
  | _ => raise TypeError
  end.

(** [v.keys()] *)
Definition keys (v : pyval) : result (list string) :=
  match v with
  | PDict d => ok (dict_keys d)
  | _ => raise AttributeError
  end.

(** [k in v.keys()] *)
Definition in_keys (k : string) (v : pyval) : result bool :=
  (ks <- keys v ;; ok (existsb (String.eqb k) ks))%res.

(** [v[0]] *)
Definition index0 (v : pyval) : result pyval :=
  match v with
  | PList [] => raise IndexError
  | PList (x :: _) => ok x
  | PStr EmptyString => raise IndexError
  | PStr (String a _) => ok (PStr (String a ""))
  | PDict _ => raise KeyError
  | _ => raise TypeError
  end.

(** [v[0:80]]; a dictionary refuses the slice as a key. *)
Definition slice80 (v : pyval) : result pyval :=
  match v with
  | PStr s => ok (PStr (prefix_chars 80 s))
  | PList l => ok (PList (firstn 80 l))
  | _ => raise TypeError
  end.

(** [len(v)] *)
Definition py_len (v : pyval) : result nat :=
  match v with
  | PStr s => ok (String.length s)
  | PList l => ok (List.length l)
  | PDict d => ok (List.length d)
  | _ => raise TypeError
  end.

(** The values a [for] loop over [v] visits. *)
Definition py_iter (v : pyval) : result (list pyval) :=
  match v with
  | PList l => ok l
  | PStr s => ok (map (fun a => PStr (String a "")) (list_ascii_of_string s))
  | PDict d => ok (map PStr (dict_keys d))
  | _ => raise TypeError
  end.

(** [l[-1]] on a list. *)
Definition last_item {A} (l : list A) : result A :=
  match rev l with
  | [] => raise IndexError
  | x :: _ => ok x
  end.

(** [v.split('/')[-1]] *)
Definition trailing_segment (v : pyval) : result string :=
  match v with
  | PStr s => last_item (split "/" s)
  | _ => raise AttributeError
  end.

(** ** Printing values *)

Definition dquote : ascii := "034"%char.
Definition squote : ascii := "039"%char.
Definition backslash : ascii := "092"%char.

(** [json.dumps] of a string with the default [ensure_ascii=True]: the
    characters from space to tilde stand for themselves, except the double
    quote and the backslash. *)
Definition json_escape_char (a : ascii) : string :=
  let n := nat_of_ascii a in
  if Ascii.eqb a dquote then String backslash (String dquote "")
  else if Ascii.eqb a backslash then String backslash (String backslash "")
  else if (n =? 8)%nat then "\b"
  else if (n =? 12)%nat then "\f"
  else if (n =? 10)%nat then "\n"
  else if (n =? 13)%nat then "\r"
  else if (n =? 9)%nat then "\t"
  else if ((32 <=? n) && (n <=? 126))%nat then String a ""
  else "\u00" +++ hex2 a.

Fixpoint concat_map (f : ascii -> string) (s : string) : string :=
  match s with
  | EmptyString => ""
  | String a s' => f a +++ concat_map f s'
  end.

Definition json_string (s : string) : string :=
  String dquote (concat_map json_escape_char s +++ String dquote "").

(** [repr] of a string: single quotes unless the string holds a single quote
    and no double quote; control characters, DEL, and the unprintable code
    points 128 to 160 and 173 are written as hexadecimal escapes. *)
Definition repr_quote (s : string) : ascii :=
  if string_mem squote s && negb (string_mem dquote s) then dquote else squote.

Definition repr_escape_char (q a : ascii) : string :=
  let n := nat_of_ascii a in
  if Ascii.eqb a q || Ascii.eqb a backslash then String backslash (String a "")
  else if (n =? 9)%nat then "\t"
  else if (n =? 10)%nat then "\n"
  else if (n =? 13)%nat then "\r"
  else if ((n <? 32) || (n =? 127) || ((128 <=? n) && (n <=? 160)) || (n =? 173))%nat
       then "\x" +++ hex2 a
  else String a "".

Definition repr_str (s : string) : string :=
  let q := repr_quote s in
  String q (concat_map (repr_escape_char q) s +++ String q "").

(** ** Parsed HTML *)

(** A BeautifulSoup tree: text, or a tag with its name, the tokens of its
    [class] attribute (a list in BeautifulSoup, empty when the attribute is
    absent), its other attributes, and its children.  The parsed document is
    itself a tag, named ["[document]"]. *)
Inductive node :=
| NText (s : string)
| NTag (name : string) (classes : list string) (attrs : list (string * string))
       (children : list node).

(** Everything below a node, in document order. *)
Fixpoint descendants (n : node) : list node :=
  match n with
  | NText _ => []
  | NTag _ _ _ cs => flat_map (fun c => c :: descendants c) cs
  end.

(** [n.text]: the strings below the node, concatenated. *)
Fixpoint text (n : node) : string :=
  match n with
  | NText s => s
  | NTag _ _ _ cs => String.concat "" (map text cs)
  end.

Definition has_name (name : string) (n : node) : bool :=
  match n with
  | NTag nm _ _ _ => String.eqb nm name
  | NText _ => false
  end.

(** The filter [{"class": c}]: one of the tag's class tokens is [c]. *)
Definition has_class (c : string) (n : node) : bool :=
  match n with
  | NTag _ cls _ _ => existsb (String.eqb c) cls
  | NText _ => false
  end.

(** The filter [{k: v}] for a single-valued attribute. *)
Definition has_attr (k v : string) (n : node) : bool :=
  match n with
  | NTag _ _ attrs _ =>
      match dict_get k attrs with
      | Some x => String.eqb x v
      | None => false
      end
  | NText _ => false
  end.

Definition any_tag (n : node) : bool := true.

(** [n.findAll(name, filter)] *)
Definition find_all (n : node) (name : string) (filter : node -> bool) : list node :=
  List.filter (fun d => has_name name d && filter d) (descendants n).

(** [n.find(name)] *)
Definition find (n : node) (name : string) : option node :=
  hd_error (find_all n name any_tag).

(** [n.get(k)] for a single-valued attribute: the value or [None]. *)
Definition get_attr (k : string) (n : node) : option string :=
  match n with
  | NTag _ _ attrs _ => dict_get k attrs
  | NText _ => None
  end.

Definition py_of_attr (a : option string) : pyval :=
  match a with
  | Some s => PStr s
  | None => PNone
  end.

(** ** Requests *)

Inductive service := FeatureService | ReportSite | Macrostrat.

(** A GET request: which of the three sites, and the URL. *)
Definition request : Type := (service * string)%type.

(** Code that sends requests: the log of requests so far goes in, the
    outcome and the extended log come out. *)
Definition io (A : Type) : Type := list request -> result A * list request.

Definition io_ret {A} (a : A) : io A := fun log => (ok a, log).

Definition io_bind {A B} (m : io A) (k : A -> io B) : io B :=
  fun log =>
    match m log with
    | (inl e, log') => (inl e, log')
    | (inr a, log') => k a log'
    end.

Definition lift {A} (r : result A) : io A := fun log => (r, log).

(** Send the request and take the site's answer. *)
Definition get {A} (s : service) (answer : string -> result A) (url : string) : io A :=
  fun log => (answer url, log ++ [(s, url)]).

Declare Scope io_scope.
Delimit Scope io_scope with io.
Notation "x <- m ;; k" := (io_bind m (fun x => k))
  (at level 61, m at next level, right associativity) : io_scope.

Definition sent (s : service) (log : list request) : bool :=
  existsb (fun r => match fst r, s with
                    | FeatureService, FeatureService => true
                    | ReportSite, ReportSite => true
                    | Macrostrat, Macrostrat => true
                    | _, _ => false
                    end) log.

(** ** Sample data *)

Definition option_string_dec (a b : option string) : {a = b} + {a <> b}.
Proof.
  decide equality; apply string_dec.
Defined.

(** One iteration order a set can have: the distinct elements in the order
    of their last occurrences. *)
Definition distinct (l : list (option string)) : list (option string) :=
  nodup option_string_dec l.

(** The floats 40.0 and -105.0, and a printer that knows these two. *)
Definition float_40 : pyfloat := S754_finite false 5 3.
Definition float_minus_105 : pyfloat := S754_finite true 105 0.

Definition sample_float_str (f : pyfloat) : string :=
  match f with
  | S754_finite false 5 3 => "40.0"
  | S754_finite true 105 0 => "-105.0"
  | _ => "nan"
  end.

(** A site that answers every request with the same page or document. *)
Definition site_of {A} (a : A) : string -> result A := fun _ => ok a.

Definition core_properties (libno api lat lng : pyval) : pyval :=
  PDict [ ("libno", libno); ("oper", PStr "Acme Oil"); ("apiwel", api);
          ("lat", lat); ("lng", lng) ].

Definition core_record (lat lng : pyval) : pyval :=
  PDict [ ("id", PInt 7);
          ("properties", core_properties (PStr "D123") (PStr "0500112345") lat lng);
          ("geometry", PNone) ].

Definition document (children : list node) : node :=
  NTag "[document]" [] [] children.

Definition anchor (title href : string) : node :=
  NTag "a" [] [("title", title); ("href", href)] [NText "link"].

Definition cell (classes : list string) (s : string) : node :=
  NTag "td" classes [] [NText s].

(** No table, no section. *)
Definition empty_page : node := document [].

(** A table of the report class whose only label matches no template. *)
Definition unknown_table_page : node :=
  document
    [ NTag "table" ["report2"] [] [ NTag "tr" [] [] [ cell ["label"] "Depth" ] ] ].

(** A photo anchor that is in no div of the report class. *)
Definition stray_photo_page : node :=
  document [ anchor "see photo" "/photos/1.jpg" ].

(** Two sections that each link to the same photo. *)
Definition two_section_page : node :=
  document
    [ NTag "div" ["report2"] [] [ anchor "see photo" "/photos/1.jpg" ];
      NTag "div" ["report2"] [] [ anchor "see photo" "/photos/1.jpg" ] ].

(** A depth table with one row, and a section with a photo shown twice and
    one document. *)
Definition sample_page : node :=
  document
    [ NTag "table" ["report2"] []
        [ NTag "tr" [] []
            [ cell ["label"] "Min Depth"; cell ["label"] "Max Depth";
              cell ["label"] "Age"; cell ["label"] "Formation" ];
          NTag "tr" [] []
            [ cell [] "100"; cell [] "200"; cell [] "Cretaceous"; cell [] "Dakota" ] ];
      NTag "div" ["report2"] []
        [ anchor "see photo" "/photos/1.jpg";
          anchor "see photo" "/photos/1.jpg";
          anchor "download analysis document" "/docs/D123/report.pdf" ] ].

Definition two_rock_types : pyval :=
  PDict [ ("rocktype", PList [PStr "sandstone"; PStr "shale"]);
          ("age", PStr "");
          ("name", PStr "") ].

Definition sample_context : pyval :=
  PDict [ ("rocktype", PList [PStr "sandstone"; PStr "shale"]);
          ("age", PStr "Cretaceous");
          ("name", PStr "") ].

Definition success_response : pyval :=
  PDict [ ("success", PDict [ ("v", PInt 1); ("data", sample_context) ]) ].

Definition sample_scraped : list (string * pyval) :=
  [ ("documents", PList [PStr "/docs/D123/report.pdf"]);
    ("photos", PList [PStr "/photos/1.jpg"]) ].

(** A section whose photo anchor has no link target. *)
Definition no_href_page : node :=
  document
    [ NTag "div" ["report2"] [] [ NTag "a" [] [("title", "see photo")] [NText "photo"] ] ].

(** The depth table of [sample_page]. *)
Definition depth_table : node :=
  NTag "table" ["report2"] []
    [ NTag "tr" [] []
        [ cell ["label"] "Min Depth"; cell ["label"] "Max Depth";
          cell ["label"] "Age"; cell ["label"] "Formation" ];
      NTag "tr" [] []
        [ cell [] "100"; cell [] "200"; cell [] "Cretaceous"; cell [] "Dakota" ] ].

(** A record whose latitude is None and that has no longitude. *)
Definition record_without_lng : pyval :=
  PDict [ ("id", PInt 7);
          ("properties",
           PDict [ ("libno", PStr "D123"); ("oper", PStr "Acme Oil");
                   ("apiwel", PNone); ("lat", PNone) ]);
          ("geometry", PNone) ].

Section Script.

Set Default Proof Using "Type".

(** [repr] of a float, and the text [json.dumps] writes for one (they
    differ on infinities and NaN); both belong to the interpreter. *)
Variable float_str : pyfloat -> string.
Variable float_json : pyfloat -> string.

Fixpoint py_repr (v : pyval) : string :=
  match v with
  | PNone => "None"
  | PBool true => "True"
  | PBool false => "False"
  | PInt z => str_of_Z z
  | PFloat f => float_str f
  | PStr s => repr_str s
  | PList l => "[" +++ join ", " (map py_repr l) +++ "]"
  | PDict d =>
      "{" +++ join ", "
                (map (fun kv => repr_str (fst kv) +++ ": " +++ py_repr (snd kv)) d)
          +++ "}"
  end.

(** [str(v)], which is also what a replacement field [{v}] of an f-string
    inserts. *)
Definition py_str (v : pyval) : string :=
  match v with
  | PStr s => s
  | _ => py_repr v
  end.

(** [json.dumps(v)] with the default separators. *)
Fixpoint json_dumps (v : pyval) : string :=
  match v with
  | PNone => "null"
  | PBool true => "true"
  | PBool false => "false"
  | PInt z => str_of_Z z
  | PFloat f => float_json f
  | PStr s => json_string s
  | PList l => "[" +++ join ", " (map json_dumps l) +++ "]"
  | PDict d =>
      "{" +++ join ", "
                (map (fun kv => json_string (fst kv) +++ ": " +++ json_dumps (snd kv)) d)
          +++ "}"
  end.

(** An f-string: the literal pieces and the formatted fields, in order. *)
Definition fstring (pieces : list string) : string := String.concat "" pieces.

(** ** The mapping of source properties to common concepts *)

Definition property_mapping : list (string * list (string * string)) :=
  [ ("core",
     [ ("parent_id", "4f4e49dae4b07f02db5e0486");
       ("source_identifier", "libno");
       ("site_operator", "oper");
       ("api_identifier", "apiwel") ]);
    ("cutting",
     [ ("parent_id", "4f4e49d8e4b07f02db5df2d2");
       ("source_identifier", "chlibno");
       ("site_operator", "operator");
       ("api_identifier", "apinum") ]) ].

(** [property_mapping[sample_type][concept]] *)
Definition mapped (sample_type concept : string) : result string :=
  match dict_get sample_type property_mapping with
  | None => raise KeyError
  | Some m =>
      match dict_get concept m with
      | None => raise KeyError
      | Some field => ok field
      end
  end.

(** [crc_record[property_mapping[sample_type][concept]]] *)
Definition record_field (sample_type concept : string) (crc_record : pyval)
  : result pyval :=
  (field <- mapped sample_type concept ;;
   getitem crc_record field)%res.

Definition make_identifier (crc_record : pyval) : result pyval :=
  (key <- getitem crc_record "id" ;;
   ok (PDict [ ("type", PStr "uniqueKey");
               ("scheme", PStr "CRC Well Catalog Database ID");
               ("key", key) ]))%res.

Definition properties_table (k v : pyval) : string :=
  fstring ["<tr><td>"; py_str k; "</td><td>"; py_str v; "</td></tr>"].

Definition crc_title (sample_type : string) (source_identifier : pyval) : string :=
  fstring ["Core Research Center "; capitalize sample_type; " ";
           py_str source_identifier].

Definition crc_body (sample_type : string)
  (crc_record additional_props macrostrat_info : pyval) : result string :=
  (libno <- record_field sample_type "source_identifier" crc_record ;;
   oper <- record_field sample_type "site_operator" crc_record ;;
   let body_string :=
     fstring ["<p>Core Research Center, "; sample_type; " "; py_str libno;
              ", from well operated by "; py_str oper; "</p>"] in
   let body_string := body_string +++ "<h4>Properties from ArcGIS MapServer</h4>" in
   let body_string := body_string +++ "<div>" in
   let body_string := body_string +++ json_dumps crc_record in
   let body_string := body_string +++ "</div>" in
   let body_string :=
     if negb (is_none additional_props) then
       let body_string := body_string +++ "<h4>Properties from Web Page</h4>" in
       let body_string := body_string +++ "<div>" in
       let body_string := body_string +++ json_dumps additional_props in
       body_string +++ "</div>"
     else body_string in
   let body_string :=
     if negb (is_none macrostrat_info) then
       let body_string :=
         body_string +++ "<h4>Geologic Map Information from Macrostrat</h4>" in
       let body_string := body_string +++ "<div>" in
       let body_string := body_string +++ json_dumps macrostrat_info in
       body_string +++ "</div>"
     else body_string in
   ok body_string)%res.

Definition crc_contacts (site_operator : pyval) : pyval :=
  PList
    [ PDict [ ("name", PStr "Core Research Center");
              ("oldPartyId", PInt 17172);
              ("type", PStr "Data Owner");
              ("contactType", PStr "organization") ];
      PDict [ ("name", PStr "Jeannine Honey");
              ("oldPartyId", PInt 4685);
              ("type", PStr "Data Steward");
              ("contactType", PStr "person") ];
      PDict [ ("name", site_operator);
              ("type", PStr "Site Operator");
              ("contactType", PStr "organization") ] ].

Definition crc_provenance : pyval :=
  PDict [ ("annotation",
           PStr "Harvested from ArcGIS Server and Core Research Center Web Site") ].

Definition unique_key (scheme : string) (key : pyval) : pyval :=
  PDict [ ("type", PStr "uniqueKey"); ("scheme", PStr scheme); ("key", key) ].

(** The two conditions read the record again for the key they append; a
    repeated read of the same field gives the same value, so each field is
    read once here. *)
Definition crc_identifiers (identifier : pyval) (sample_type : string)
  (crc_record : pyval) : result pyval :=
  (let identifiers := [unique_key "CRC Well Catalog Database ID" identifier] in
   libno <- record_field sample_type "source_identifier" crc_record ;;
   let identifiers :=
     if negb (is_none libno)
     then identifiers ++ [unique_key "CRC Library Number" libno]
     else identifiers in
   api <- record_field sample_type "api_identifier" crc_record ;;
   let identifiers :=
     if negb (is_none api)
     then identifiers ++ [unique_key "American Petroleum Institute Number" api]
     else identifiers in
   ok (PList identifiers))%res.

Definition report_url (sample_type : string) (identifier : pyval) : string :=
  fstring ["https://my.usgs.gov/crcwc/"; sample_type; "/report/"; py_str identifier].

Definition report_link (sample_type : string) (identifier : pyval) : pyval :=
  PDict [ ("type", PStr "webLink");
          ("typeLabel", PStr "Web Link");
          ("uri", PStr (report_url sample_type identifier));
          ("rel", PStr "related");
          ("title", PStr "Core Research Center Well Catalog Web Page");
          ("hidden", PBool false);
          ("itemWebLinkTypeId", PStr "4f4e475de4b07f02db47debf") ].

(** The entry appended for one scraped link; [label] is ["Download"] for a
    document and ["Photo"] for a photo, [kind] the words of the title. *)
Definition download_link (label kind : string) (doc_link : pyval) : result pyval :=
  (segment <- trailing_segment doc_link ;;
   ok (PDict [ ("type", PStr "download");
               ("typeLabel", PStr label);
               ("uri", doc_link);
               ("rel", PStr "related");
               ("title", PStr (fstring ["Core Research Center "; kind; " "; segment]));
               ("hidden", PBool false);
               ("itemWebLinkTypeId", PStr "4f4e475de4b07f02db47dec0") ]))%res.

(** [if key in extracted_data.keys(): for doc_link in extracted_data[key]:
    web_links.append(...)] *)
Definition append_links (key label kind : string) (extracted_data : pyval)
  (web_links : list pyval) : result (list pyval) :=
  (present <- in_keys key extracted_data ;;
   if (present : bool) then
     links <- getitem extracted_data key ;;
     doc_links <- py_iter links ;;
     entries <- rmap (download_link label kind) doc_links ;;
     ok (web_links ++ entries)
   else ok web_links)%res.

Definition crc_weblinks (sample_type : string) (identifier extracted_data : pyval)
  : result pyval :=
  (let web_links := [report_link sample_type identifier] in
   web_links <-
     (if negb (is_none extracted_data) then
        web_links <- append_links "documents" "Download" "Analysis File"
                       extracted_data web_links ;;
        append_links "photos" "Photo" "Photo" extracted_data web_links
      else ok web_links) ;;
   ok (PList web_links))%res.

Definition crc_location (crc_record : pyval) : result pyval :=
  (geometry <- getitem crc_record "geometry" ;;
   coordinates <- getitem geometry "coordinates" ;;
   ok (PDict [ ("representationalPoint", coordinates) ]))%res.

Definition theme_tag (scheme : string) (name : pyval) : pyval :=
  PDict [ ("type", PStr "Theme"); ("scheme", PStr scheme); ("name", name) ].

(** [tags.append({..., "name": v[0:80]})] *)
Definition sliced_tag (scheme : string) (v : pyval) : result pyval :=
  (name <- slice80 v ;; ok (theme_tag scheme name))%res.

Definition crc_tags (macrostrat_info : pyval) : result pyval :=
  (let tags := [] in
   rocktype <- getitem macrostrat_info "rocktype" ;;
   first <- index0 rocktype ;;
   tags <-
     (if negb (is_none first) then
        rock_types <- py_iter rocktype ;;
        rock_tags <- rmap (sliced_tag "Rock Type") rock_types ;;
        ok (tags ++ rock_tags)
      else ok tags) ;;
   age <- getitem macrostrat_info "age" ;;
   age_len <- py_len age ;;
   tags <-
     (if (0 <? age_len)%nat then
        tag <- sliced_tag "Geologic Age" age ;;
        ok (tags ++ [tag])
      else ok tags) ;;
   name <- getitem macrostrat_info "name" ;;
   name_len <- py_len name ;;
   tags <-
     (if (0 <? name_len)%nat then
        tag <- sliced_tag "Geologic Formation" name ;;
        ok (tags ++ [tag])
      else ok tags) ;;
   if (List.length tags =? 0)%nat then ok PNone else ok (PList tags))%res.

(** ** The three sites and the iteration order of sets *)

(** [requests.get(url).json()] at the map service and at Macrostrat, and
    [BeautifulSoup(requests.get(url).content, "html.parser")] at the report
    site. *)
Variable feature_service : string -> result pyval.
Variable report_site : string -> result node.
Variable macrostrat_api : string -> result pyval.

(** [list(set(l))]: the distinct elements of [l], in an order the
    interpreter chooses. *)
Variable set_order : list (option string) -> list (option string).
Hypothesis set_order_NoDup : forall l, NoDup (set_order l).
Hypothesis set_order_In : forall l x, In x (set_order l) <-> In x l.

(** ** Source Fetcher *)

Definition crcwc_items (sample_type : string) (record_count offset : pyval)
  : io pyval :=
  (let layer :=
     if String.eqb sample_type "core" then Some 0%Z
     else if String.eqb sample_type "cutting" then Some 1%Z
     else None in
   let params :=
     [ "where=0%3D0";
       "outFields=*";
       "returnGeometry=true";
       "returnIdsOnly=false";
       "returnCountOnly=false";
       "returnZ=false";
       "returnM=false";
       "returnDistinctValues=false";
       fstring ["resultOffset="; py_str offset];
       fstring ["resultRecordCount="; py_str record_count];
       "returnExtentsOnly=false";
       "f=geojson" ] in
   ags_url <- lift
     match layer with
     | None => raise UnboundLocalError
     | Some layer =>
         ok (fstring ["https://my.usgs.gov/arcgis/rest/services/crcwc/crcwc/MapServer/";
                      str_of_Z layer; "/query?"; join "&" params])
     end ;;
   response <- get FeatureService feature_service ags_url ;;
   io_ret response)%io.

(** ** Report Scraper *)

Definition target_schemas : list (string * list string) :=
  [ ("depth_age_formation", ["Min Depth"; "Max Depth"; "Age"; "Formation"]);
    ("thin_sections", ["Sequence"; "Min Depth"; "Max Depth"; "View"]) ].

Definition labels_eqb (l1 l2 : list string) : bool :=
  if list_eq_dec string_dec l1 l2 then true else false.

(** [list(schemas.keys())[list(schemas.values()).index(labels)]] *)
Fixpoint schema_named (labels : list string) (schemas : list (string * list string))
  : result string :=
  match schemas with
  | [] => raise ValueError
  | (k, v) :: rest => if labels_eqb v labels then ok k else schema_named labels rest
  end.

Definition cell_data (col : node) : pyval :=
  match find col "a" with
  | Some anchor => py_of_attr (get_attr "href" anchor)
  | None => PStr (text col)
  end.

(** [for i, col in enumerate(cols): d_this[labels[i]] = this_data] *)
Fixpoint row_cells (labels : list string) (i : nat) (cols : list node)
  (d_this : list (string * pyval)) : result (list (string * pyval)) :=
  match cols with
  | [] => ok d_this
  | col :: cols' =>
      let this_data := cell_data col in
      match nth_error labels i with
      | None => raise IndexError
      | Some label => row_cells labels (S i) cols' (dict_set label this_data d_this)
      end
  end.

(** [data_structures[target_data].append(d_this)] *)
Definition append_row (target_data : string) (d_this : pyval)
  (data_structures : list (string * pyval)) : result (list (string * pyval)) :=
  match dict_get target_data data_structures with
  | None => raise KeyError
  | Some (PList rows) => ok (dict_set target_data (PList (rows ++ [d_this])) data_structures)
  | Some _ => raise AttributeError
  end.

Fixpoint scrape_rows (labels : list string) (target_data : string) (rows : list node)
  (data_structures : list (string * pyval)) : result (list (string * pyval)) :=
  match rows with
  | [] => ok data_structures
  | row :: rows' =>
      (d_this <- row_cells labels 0 (find_all row "td" any_tag) [] ;;
       data_structures <- append_row target_data (PDict d_this) data_structures ;;
       scrape_rows labels target_data rows' data_structures)%res
  end.

(** The body of the loop over the tables of class [report2]. *)
Definition scrape_table (table : node) (data_structures : list (string * pyval))
  : result (list (string * pyval)) :=
  (first_row <- match find table "tr" with
                | None => raise AttributeError
                | Some r => ok r
                end ;;
   let labels := map text (find_all first_row "td" (has_class "label")) in
   target_data <- schema_named labels target_schemas ;;
   let data_structures := dict_set target_data (PList []) data_structures in
   scrape_rows labels target_data (tl (find_all table "tr" any_tag)) data_structures)%res.

Fixpoint scrape_tables (tables : list node) (data_structures : list (string * pyval))
  : result (list (string * pyval)) :=
  match tables with
  | [] => ok data_structures
  | table :: tables' =>
      (data_structures <- scrape_table table data_structures ;;
       scrape_tables tables' data_structures)%res
  end.

(** [list(set([i.get('href') for i in section.findAll("a", {"title": t})]))] *)
Definition section_links (title : string) (section : node) : list pyval :=
  map py_of_attr
      (set_order (map (get_attr "href") (find_all section "a" (has_attr "title" title)))).

(** The loop over the [div]s of class [report2], extending both lists. *)
Fixpoint scrape_links (sections : list node) (photos documents : list pyval)
  : list pyval * list pyval :=
  match sections with
  | [] => (photos, documents)
  | section :: sections' =>
      let photos := photos ++ section_links "see photo" section in
      let documents := documents ++ section_links "download analysis document" section in
      scrape_links sections' photos documents
  end.

(** What [extract_crc_data] does with the parsed page. *)
Definition scrape (soup : node) : result pyval :=
  (data_structures <-
     scrape_tables (find_all soup "table" (has_class "report2")) [] ;;
   let (photos, documents) :=
     scrape_links (find_all soup "div" (has_class "report2")) [] [] in
   let data_structures :=
     if (0 <? List.length photos)%nat
     then dict_set "photos" (PList photos) data_structures
     else data_structures in
   let data_structures :=
     if (0 <? List.length documents)%nat
     then dict_set "documents" (PList documents) data_structures
     else data_structures in
   match data_structures with
   | [] => ok PNone
   | _ => ok (PDict data_structures)
   end)%res.

Definition extract_crc_data (crcid : pyval) (sample_type : string) : io pyval :=
  (let url := report_url sample_type crcid in
   soup <- get ReportSite report_site url ;;
   lift (scrape soup))%io.

(** ** Geologic Enricher *)

Definition macrostrat_url (lat lng : pyval) : string :=
  fstring ["https://macrostrat.org/api/mobile/point?lat="; py_str lat;
           "&lng="; py_str lng].

Definition macrostrat_context (lat lng : pyval) : io pyval :=
  (let api := macrostrat_url lat lng in
   r <- get Macrostrat macrostrat_api api ;;
   lift
     (has_success <- in_keys "success" r ;;
      if (has_success : bool) then
        success <- getitem r "success" ;;
        has_data <- in_keys "data" success ;;
        if (has_data : bool) then
          success <- getitem r "success" ;;
          getitem success "data"
        else ok PNone
      else ok PNone)%res)%io.

(** ** Schema Mapper *)

(** [isinstance(crc_record["properties"]["lat"], float) and
    isinstance(crc_record["properties"]["lng"], float)]; the second test is
    not evaluated when the first fails. *)
Definition has_float_coordinates (crc_record : pyval) : result bool :=
  (properties <- getitem crc_record "properties" ;;
   lat <- getitem properties "lat" ;;
   if is_float lat then
     properties <- getitem crc_record "properties" ;;
     lng <- getitem properties "lng" ;;
     ok (is_float lng)
   else ok false)%res.

(** The item literal and the two optional members that follow it. *)
Definition sb_item (sample_type : string)
  (crc_record extracted_data additional_props macrostrat_info : pyval)
  : result pyval :=
  (parent_id <- mapped sample_type "parent_id" ;;
   crcid <- getitem crc_record "id" ;;
   properties <- getitem crc_record "properties" ;;
   identifiers <- crc_identifiers crcid sample_type properties ;;
   properties <- getitem crc_record "properties" ;;
   libno <- record_field sample_type "source_identifier" properties ;;
   let title := crc_title sample_type libno in
   properties <- getitem crc_record "properties" ;;
   body <- crc_body sample_type properties additional_props macrostrat_info ;;
   properties <- getitem crc_record "properties" ;;
   oper <- record_field sample_type "site_operator" properties ;;
   let contacts := crc_contacts oper in
   crcid <- getitem crc_record "id" ;;
   web_links <- crc_weblinks sample_type crcid extracted_data ;;
   let sb_item :=
     [ ("parentId", PStr parent_id);
       ("identifiers", identifiers);
       ("title", PStr title);
       ("body", PStr body);
       ("contacts", contacts);
       ("provenance", crc_provenance);
       ("browseCategories", PList [PStr "Physical Item"]);
       ("webLinks", web_links) ] in
   geometry <- getitem crc_record "geometry" ;;
   sb_item <-
     (if negb (is_none geometry) then
        spatial <- crc_location crc_record ;;
        ok (dict_set "spatial" spatial sb_item)
      else ok sb_item) ;;
   sb_item <-
     (if negb (is_none macrostrat_info) then
        item_tags <- crc_tags macrostrat_info ;;
        if negb (is_none item_tags)
        then ok (dict_set "tags" item_tags sb_item)
        else ok sb_item
      else ok sb_item) ;;
   ok (PDict sb_item))%res.

(** [if extracted_data is not None and "depth_age_formation" in
    extracted_data.keys(): additional_props = extracted_data[...]] *)
Definition page_properties (extracted_data additional_props : pyval)
  : result pyval :=
  (if negb (is_none extracted_data) then
     found <- in_keys "depth_age_formation" extracted_data ;;
     if (found : bool)
     then getitem extracted_data "depth_age_formation"
     else ok additional_props
   else ok additional_props)%res.

Definition sb_item_from_crcwc (sample_type : string)
  (crc_record additional_props macrostrat_info : pyval) : io pyval :=
  (crcid <- lift (getitem crc_record "id") ;;
   extracted_data <- extract_crc_data crcid sample_type ;;
   additional_props <- lift (page_properties extracted_data additional_props) ;;
   located <- lift (has_float_coordinates crc_record) ;;
   macrostrat_info <-
     (if (located : bool) then
        lat <- lift (properties <- getitem crc_record "properties" ;;
                     getitem properties "lat")%res ;;
        lng <- lift (properties <- getitem crc_record "properties" ;;
                     getitem properties "lng")%res ;;
        macrostrat_context lat lng
      else io_ret macrostrat_info) ;;
   lift (sb_item sample_type crc_record extracted_data additional_props
           macrostrat_info))%io.

(** ** Vocabulary of the statements *)

(** [seg] is the trailing path segment of [link]: it holds no slash, and the
    link is [seg] alone or ends with a slash followed by [seg]. *)
Definition trailing_piece (link seg : string) : Prop :=
  string_mem "/" seg = false
  /\ (link = seg \/ exists pre, link = pre +++ String "/" seg).

(** The tag made from a string value: its first 80 characters. *)
Definition tag80 (scheme s : string) : pyval :=
  theme_tag scheme (PStr (prefix_chars 80 s)).

(** The tag of a text category: none when the text is empty. *)
Definition text_tags (scheme s : string) : list pyval :=
  match s with
  | EmptyString => []
  | _ => [tag80 scheme s]
  end.

(** What [crc_tags] hands back: [None] in place of an empty list. *)
Definition tags_or_none (tags : list pyval) : pyval :=
  match tags with
  | [] => PNone
  | _ => PList tags
  end.

(** The rock types that get a tag: none when the list starts with [None],
    all of them when the list is a non-empty list of strings. *)
Definition tagged_rock_types (rocktype : pyval) (rocks : list string) : Prop :=
  (exists rest, rocktype = PList (PNone :: rest) /\ rocks = [])
  \/ (rocks <> [] /\ rocktype = PList (map PStr rocks)).

(** The number of populated categories of a geologic context. *)
Definition populated_categories (rocktype : pyval) (age name : string) : nat :=
  (match index0 rocktype with
   | inr PNone | inl _ => 0
   | inr _ => 1
   end
   + (if String.eqb age "" then 0 else 1)
   + (if String.eqb name "" then 0 else 1))%nat.

(** The data member under the success member of a response, when the
    response has both. *)
Definition success_data (r : pyval) : option pyval :=
  match r with
  | PDict d =>
      match dict_get "success" d with
      | Some (PDict success) => dict_get "data" success
      | _ => None
      end
  | _ => None
  end.

(** A response whose shape the enricher can read: an object whose success
    member, when it has one, is an object. *)
Definition readable_response (r : pyval) : bool :=
  match r with
  | PDict d =>
      match dict_get "success" d with
      | Some (PDict _) | None => true
      | Some _ => false
      end
  | _ => false
  end.

Definition report_tables (soup : node) : list node :=
  find_all soup "table" (has_class "report2").

Definition report_sections (soup : node) : list node :=
  find_all soup "div" (has_class "report2").

(** The anchors with the given title inside one section. *)
Definition titled_anchors (title : string) (section : node) : list node :=
  find_all section "a" (has_attr "title" title).

(** The anchors with the given title inside the sections of the page. *)
Definition page_anchors (title : string) (soup : node) : list node :=
  flat_map (titled_anchors title) (report_sections soup).

(** The labels of the first row of a table. *)
Definition table_labels (table : node) : option (list string) :=
  match find table "tr" with
  | None => None
  | Some first_row => Some (map text (find_all first_row "td" (has_class "label")))
  end.

(** The section a table fills: the template its labels match. *)
Definition table_section (table : node) : option string :=
  match table_labels table with
  | None => None
  | Some labels =>
      match schema_named labels target_schemas with
      | inr target => Some target
      | inl _ => None
      end
  end.

(** A table the scraper can read: its first row matches a template and no
    later row has more cells than the first row has labels. *)
Definition readable_table (table : node) : bool :=
  match table_labels table with
  | None => false
  | Some labels =>
      match schema_named labels target_schemas with
      | inr _ =>
          forallb (fun row =>
                     (List.length (find_all row "td" any_tag) <=? List.length labels)%nat)
                  (tl (find_all table "tr" any_tag))
      | inl _ => false
      end
  end.

Definition dict_or_none (d : list (string * pyval)) : pyval :=
  match d with
  | [] => PNone
  | _ => PDict d
  end.

(** The dictionary [scrape] ends with, given the one the tables left. *)
Definition with_links (soup : node) (tables_data : list (string * pyval))
  : list (string * pyval) :=
  let photos := flat_map (section_links "see photo") (report_sections soup) in
  let documents :=
    flat_map (section_links "download analysis document") (report_sections soup) in
  let data_structures :=
    if (0 <? List.length photos)%nat
    then dict_set "photos" (PList photos) tables_data
    else tables_data in
  if (0 <? List.length documents)%nat
  then dict_set "documents" (PList documents) data_structures
  else data_structures.

(** The coordinates of a record when both are present and both floats. *)
Definition float_coordinates (crc_record : pyval) : option (pyval * pyval) :=
  match getitem crc_record "properties" with
  | inr properties =>
      match getitem properties "lat", getitem properties "lng" with
      | inr lat, inr lng =>
          if is_float lat && is_float lng then Some (lat, lng) else None
      | _, _ => None
      end
  | inl _ => None
  end.

(** A number: an integer or a float. *)
Definition is_numeric (v : pyval) : bool :=
  match v with
  | PInt _ | PFloat _ => true
  | _ => false
  end.

(** ** Vocabulary of the further properties *)

(** The identifier appended for a field: none when the field is None. *)
Definition optional_key (scheme : string) (v : pyval) : list pyval :=
  if is_none v
  then []
  else [ PDict [ ("type", PStr "uniqueKey"); ("scheme", PStr scheme); ("key", v) ] ].

(** The last piece of a link split at its slashes. *)
Definition file_name (link : string) : string := List.last (split "/" link) "".

(** The web-link entry of the report page at the given address. *)
Definition report_entry (uri : string) : pyval :=
  PDict [ ("type", PStr "webLink");
          ("typeLabel", PStr "Web Link");
          ("uri", PStr uri);
          ("rel", PStr "related");
          ("title", PStr "Core Research Center Well Catalog Web Page");
          ("hidden", PBool false);
          ("itemWebLinkTypeId", PStr "4f4e475de4b07f02db47debf") ].

(** The web-link entry of one scraped link. *)
Definition link_entry (label kind link : string) : pyval :=
  PDict [ ("type", PStr "download");
          ("typeLabel", PStr label);
          ("uri", PStr link);
          ("rel", PStr "related");
          ("title", PStr ("Core Research Center " +++ kind +++ " " +++ file_name link));
          ("hidden", PBool false);
          ("itemWebLinkTypeId", PStr "4f4e475de4b07f02db47dec0") ].

(** The values of a list of optional values, when none is missing. *)
Fixpoint all_some {A} (l : list (option A)) : option (list A) :=
  match l with
  | [] => Some []
  | None :: _ => None
  | Some a :: l' =>
      match all_some l' with
      | Some r => Some (a :: r)
      | None => None
      end
  end.

(** The links the scraped data hold under a key: none when the key is
    absent, and otherwise a list of link targets, None for an anchor that
    had no [href]. *)
Definition scraped_links (key : string) (scraped : list (string * pyval))
  (hrefs : list (option string)) : Prop :=
  (dict_get key scraped = None /\ hrefs = [])
  \/ dict_get key scraped = Some (PList (map py_of_attr hrefs)).

(** The dictionary made of one row of a table: [d_this] at the end of the
    loop over the cells. *)
Definition row_dict (labels : list string) (row : node) : result pyval :=
  (d_this <- row_cells labels 0 (find_all row "td" any_tag) [] ;;
   ok (PDict d_this))%res.

(** The keys a scraped mapping can have. *)
Definition scraped_keys : list string :=
  ["depth_age_formation"; "thin_sections"; "photos"; "documents"].

(** The link targets of the anchors with the given title, section by
    section, as the scraper lists them: None for an anchor without [href]. *)
Definition page_hrefs (title : string) (soup : node) : list (option string) :=
  flat_map (fun section => set_order (map (get_attr "href") (titled_anchors title section)))
           (report_sections soup).

(** The members every item has, in the order of the item literal. *)
Definition fixed_item_keys : list string :=
  ["parentId"; "identifiers"; "title"; "body"; "contacts"; "provenance";
   "browseCategories"; "webLinks"].

(** The members an item has, given the geometry of the record and the
    geologic context. *)
Definition item_keys (geometry macrostrat_info : pyval) : list string :=
  fixed_item_keys
    ++ (if is_none geometry then [] else ["spatial"])
    ++ (if is_none macrostrat_info then []
        else match crc_tags macrostrat_info with
             | inr PNone | inl _ => []
             | inr _ => ["tags"]
             end).

(** ** Properties of the string and list primitives *)

Lemma append_assoc (a b c : string) : (a +++ b) +++ c = a +++ b +++ c.
Proof.
  induction a as [|x a IH]; simpl; [reflexivity | now rewrite IH].
Qed.

Lemma Contains_append_r (t s u : string) : Contains t s -> Contains t (s +++ u).
Proof.
  intros (pre & post & ->).
  exists pre, (post +++ u).
  now rewrite !append_assoc.
Qed.

Lemma last_item_snoc {A} (init : list A) (x : A) : last_item (init ++ [x]) = ok x.
Proof.
  unfold last_item. now rewrite rev_unit.
Qed.

(** A split ends with a piece that holds no separator; the string is that
    piece alone, or ends with the separator followed by it. *)
Lemma split_snoc (c : ascii) (s : string) :
  exists init seg,
    split c s = init ++ [seg]
    /\ string_mem c seg = false
    /\ (init = [] -> s = seg)
    /\ (init <> [] -> exists pre, s = pre +++ String c seg).
Proof.
  induction s as [|a s (init & seg & Hsplit & Hmem & Hone & Hmore)]; simpl.
  - exists [], "". repeat split; auto. now intros [].
  - destruct (Ascii.eqb a c) eqn:Hac.
    + apply Ascii.eqb_eq in Hac; subst a.
      exists ("" :: init), seg. rewrite Hsplit.
      repeat split; auto; [discriminate|].
      intros _. destruct init as [|p init].
      * exists "". now rewrite Hone.
      * destruct Hmore as (pre & ->); [discriminate|].
        now exists (String c pre).
    + rewrite Hsplit. destruct init as [|p init]; simpl.
      * exists [], (String a seg). simpl. rewrite Hac, Hmem.
        repeat split; auto; [|now intros []].
        intros _. now rewrite Hone.
      * exists (String a p :: init), seg.
        repeat split; auto; [discriminate|].
        intros _. destruct Hmore as (pre & ->); [discriminate|].
        now exists (String a pre).
Qed.

Lemma trailing_segment_spec (s : string) :
  exists seg, trailing_segment (PStr s) = ok seg /\ trailing_piece s seg.
Proof.
  destruct (split_snoc "/" s) as (init & seg & Hsplit & Hmem & Hone & Hmore).
  exists seg. simpl. rewrite Hsplit, last_item_snoc.
  repeat split; auto.
  destruct init; [left; auto | right; apply Hmore; discriminate].
Qed.

Lemma mapped_sample_type (sample_type concept field : string) :
  mapped sample_type concept = ok field ->
  sample_type = "core" \/ sample_type = "cutting".
Proof.
  unfold mapped, property_mapping. cbn [dict_get].
  destruct (String.eqb_spec "core" sample_type) as [<-|_]; [now left|].
  destruct (String.eqb_spec "cutting" sample_type) as [<-|_]; [now right|].
  discriminate.
Qed.

(** ** Identifiers *)

(** C1: for a sample type among "core" and "cutting" and a record whose
    library-number and API-number fields are both None, [crc_identifiers]
    returns the source unique key alone; when both fields are not None it
    returns the source key, the library number and the API number, in that
    order. *)
Theorem crc_identifiers_null_or_full :
  forall (identifier : pyval) (sample_type : string) (crc_record libno api : pyval),
    In sample_type ["core"; "cutting"] ->
    record_field sample_type "source_identifier" crc_record = ok libno ->
    record_field sample_type "api_identifier" crc_record = ok api ->
    (libno = PNone /\ api = PNone ->
     crc_identifiers identifier sample_type crc_record =
       ok (PList [ PDict [ ("type", PStr "uniqueKey");
                           ("scheme", PStr "CRC Well Catalog Database ID");
                           ("key", identifier) ] ]))
    /\ (libno <> PNone /\ api <> PNone ->
        crc_identifiers identifier sample_type crc_record =
          ok (PList [ PDict [ ("type", PStr "uniqueKey");
                              ("scheme", PStr "CRC Well Catalog Database ID");
                              ("key", identifier) ];
                      PDict [ ("type", PStr "uniqueKey");
                              ("scheme", PStr "CRC Library Number");
                              ("key", libno) ];
                      PDict [ ("type", PStr "uniqueKey");
                              ("scheme", PStr "American Petroleum Institute Number");
                              ("key", api) ] ])).
Proof.
  intros identifier sample_type crc_record libno api _ Hlib Hapi.
  unfold crc_identifiers. rewrite Hlib, Hapi. simpl.
  split.
  - intros [-> ->]. reflexivity.
  - intros [Hl Ha].
    destruct libno; try contradiction; destruct api; try contradiction; reflexivity.
Qed.

(** ** Title *)


(** ** Web links *)

Lemma in_keys_dict_get (k : string) (d : list (string * pyval)) (v : pyval) :
  dict_get k d = Some v -> in_keys k (PDict d) = ok true.
Proof.
  unfold in_keys, keys, dict_keys. simpl. intro H. f_equal.
  induction d as [|[k' v'] d IH]; simpl in *; [discriminate|].
  rewrite String.eqb_sym.
  destruct (String.eqb k' k); [reflexivity | auto].
Qed.

(** C2, as the code has it: when the scraped data hold exactly one document
    link and exactly one photo link, [crc_weblinks] returns three entries:
    the fixed web link to the report page, then a "download" entry for the
    document titled "Core Research Center Analysis File " and the trailing
    path segment of its link, then a "download" entry for the photo titled
    "Core Research Center Photo " and the trailing path segment of its
    link. *)
Theorem crc_weblinks_one_document_one_photo :
  forall (sample_type : string) (identifier : pyval)
         (scraped : list (string * pyval)) (doc photo : string),
    dict_get "documents" scraped = Some (PList [PStr doc]) ->
    dict_get "photos" scraped = Some (PList [PStr photo]) ->
    exists doc_file photo_file,
      trailing_piece doc doc_file
      /\ trailing_piece photo photo_file
      /\ crc_weblinks sample_type identifier (PDict scraped) =
           ok (PList
                 [ PDict [ ("type", PStr "webLink");
                           ("typeLabel", PStr "Web Link");
                           ("uri",
                            PStr ("https://my.usgs.gov/crcwc/" +++ sample_type
                                    +++ "/report/" +++ py_str identifier));
                           ("rel", PStr "related");
                           ("title", PStr "Core Research Center Well Catalog Web Page");
                           ("hidden", PBool false);
                           ("itemWebLinkTypeId", PStr "4f4e475de4b07f02db47debf") ];
                   PDict [ ("type", PStr "download");
                           ("typeLabel", PStr "Download");
                           ("uri", PStr doc);
                           ("rel", PStr "related");
                           ("title",
                            PStr ("Core Research Center Analysis File " +++ doc_file));
                           ("hidden", PBool false);
                           ("itemWebLinkTypeId", PStr "4f4e475de4b07f02db47dec0") ];
                   PDict [ ("type", PStr "download");
                           ("typeLabel", PStr "Photo");
                           ("uri", PStr photo);
                           ("rel", PStr "related");
                           ("title",
                            PStr ("Core Research Center Photo " +++ photo_file));
                           ("hidden", PBool false);
                           ("itemWebLinkTypeId", PStr "4f4e475de4b07f02db47dec0") ] ]).
Proof.
  intros sample_type identifier scraped doc photo Hdocs Hphotos.
  destruct (trailing_segment_spec doc) as (doc_file & Hdoc & Hdoc_piece).
  destruct (trailing_segment_spec photo) as (photo_file & Hphoto & Hphoto_piece).
  exists doc_file, photo_file.
  split; [exact Hdoc_piece|]. split; [exact Hphoto_piece|].
  unfold crc_weblinks, append_links. cbn [is_none negb].
  rewrite (in_keys_dict_get _ _ _ Hdocs), (in_keys_dict_get _ _ _ Hphotos).
  unfold getitem. rewrite Hdocs, Hphotos.
  cbn [rbind ok py_iter rmap]. unfold download_link.
  rewrite Hdoc. cbn [rbind ok py_iter rmap app]. rewrite Hphoto.
  reflexivity.
Qed.

(** ** Body *)

Lemma ok_inj {A} (x y : A) : ok x = ok y -> x = y.
Proof.
  unfold ok. congruence.
Qed.

Lemma Contains_here (x t y : string) : Contains t ((x +++ t) +++ y).
Proof.
  exists x, y. now rewrite append_assoc.
Qed.

(** The body is produced whenever the sample type is known and the record
    has the library-number and operator fields. *)
Lemma crc_body_defined (sample_type : string)
  (crc_record additional_props macrostrat_info libno oper : pyval) :
  record_field sample_type "source_identifier" crc_record = ok libno ->
  record_field sample_type "site_operator" crc_record = ok oper ->
  exists body,
    crc_body sample_type crc_record additional_props macrostrat_info = ok body.
Proof.
  intros Hlib Hoper. unfold crc_body. rewrite Hlib, Hoper.
  cbn [rbind ok]. eexists. reflexivity.
Qed.

(** C4: the body string [crc_body] produces contains, as a contiguous
    substring, the JSON serialization of the record properties. *)
Theorem crc_body_contains_properties :
  forall (sample_type : string)
         (crc_record additional_props macrostrat_info : pyval) (body : string),
    crc_body sample_type crc_record additional_props macrostrat_info = ok body ->
    Contains (json_dumps crc_record) body.
Proof.
  intros sample_type crc_record additional_props macrostrat_info body.
  unfold crc_body.
  destruct (record_field sample_type "source_identifier" crc_record)
    as [e|libno]; [discriminate|].
  destruct (record_field sample_type "site_operator" crc_record)
    as [e|oper]; [discriminate|].
  cbn [rbind]. intro H. apply ok_inj in H. subst body.
  destruct (negb (is_none additional_props)), (negb (is_none macrostrat_info));
    repeat first [apply Contains_here | apply Contains_append_r].
Qed.

(** ** Layers of the map service *)

(** C10: for a sample type other than "core" and "cutting" [crcwc_items]
    raises the unbound-name error at the construction of the query URL and
    sends no request; for "core" it queries layer 0 and for "cutting"
    layer 1. *)
Theorem crcwc_items_layer :
  forall (sample_type : string) (record_count offset : pyval) (log : list request),
    (sample_type <> "core" -> sample_type <> "cutting" ->
     crcwc_items sample_type record_count offset log = (raise UnboundLocalError, log))
    /\ (sample_type = "core" ->
        exists query,
          let url := "https://my.usgs.gov/arcgis/rest/services/crcwc/crcwc/MapServer/0/query?"
                       +++ query in
          crcwc_items sample_type record_count offset log =
            (feature_service url, log ++ [(FeatureService, url)]))
    /\ (sample_type = "cutting" ->
        exists query,
          let url := "https://my.usgs.gov/arcgis/rest/services/crcwc/crcwc/MapServer/1/query?"
                       +++ query in
          crcwc_items sample_type record_count offset log =
            (feature_service url, log ++ [(FeatureService, url)])).
Proof.
  intros sample_type record_count offset log.
  split; [|split].
  - intros Hcore Hcutting. unfold crcwc_items.
    destruct (String.eqb_spec sample_type "core"); [contradiction|].
    destruct (String.eqb_spec sample_type "cutting"); [contradiction|].
    reflexivity.
  - intros ->. unfold crcwc_items.
    cbn [String.eqb Ascii.eqb Bool.eqb].
    match goal with |- context [join "&" ?params] => exists (join "&" params) end.
    unfold io_bind, lift, get, io_ret, ok.
    change (fstring [?a; str_of_Z ?l; ?b; ?q]) with (a +++ str_of_Z l +++ b +++ q).
    destruct (feature_service _); reflexivity.
  - intros ->. unfold crcwc_items.
    cbn [String.eqb Ascii.eqb Bool.eqb].
    match goal with |- context [join "&" ?params] => exists (join "&" params) end.
    unfold io_bind, lift, get, io_ret, ok.
    change (fstring [?a; str_of_Z ?l; ?b; ?q]) with (a +++ str_of_Z l +++ b +++ q).
    destruct (feature_service _); reflexivity.
Qed.

(** ** Theme tags *)

Lemma prefix_chars_length (n : nat) (s : string) :
  (String.length (prefix_chars n s) <= n)%nat.
Proof.
  revert s. induction n as [|n IH]; intros [|a s]; simpl; try lia.
  specialize (IH s). lia.
Qed.

Lemma prefix_chars_prefix (n : nat) (s : string) :
  exists rest, s = prefix_chars n s +++ rest.
Proof.
  revert s. induction n as [|n IH]; intros s.
  - exists s. now destruct s.
  - destruct s as [|a s]; [now exists ""|].
    destruct (IH s) as (rest & H). exists rest. simpl. now rewrite <- H.
Qed.

Lemma tag80_name (scheme s : string) :
  exists n, getitem (tag80 scheme s) "name" = ok (PStr n)
            /\ (String.length n <= 80)%nat.
Proof.
  exists (prefix_chars 80 s). split; [reflexivity | apply prefix_chars_length].
Qed.

Lemma text_tags_name (scheme s : string) :
  Forall (fun tag => exists n, getitem tag "name" = ok (PStr n)
                                /\ (String.length n <= 80)%nat)
         (text_tags scheme s).
Proof.
  destruct s as [|a s]; simpl; constructor; [apply tag80_name | constructor].
Qed.

Lemma rmap_sliced_tag (scheme : string) (rocks : list string) :
  rmap (sliced_tag scheme) (map PStr rocks) = ok (map (tag80 scheme) rocks).
Proof.
  induction rocks as [|r rocks IH]; simpl; [reflexivity|].
  now rewrite IH.
Qed.

Lemma tags_or_none_length (tags : list pyval) :
  (if (List.length tags =? 0)%nat then ok PNone else ok (PList tags))
  = ok (tags_or_none tags).
Proof.
  now destruct tags.
Qed.

(** C3, as the code has it: when the rock-type list starts with None, the
    age is empty and the formation name is empty, [crc_tags] returns None;
    otherwise, for a rock-type list that starts with None or is a non-empty
    list of strings, it returns one tag per rock type of the list (none
    when the list starts with None), then one tag for the age if it is not
    empty, then one for the formation name if it is not empty, every name
    cut to its first 80 characters. *)
Theorem crc_tags_per_rock_type :
  forall (macrostrat_info rocktype : pyval) (rocks : list string) (age name : string),
    getitem macrostrat_info "rocktype" = ok rocktype ->
    getitem macrostrat_info "age" = ok (PStr age) ->
    getitem macrostrat_info "name" = ok (PStr name) ->
    tagged_rock_types rocktype rocks ->
    crc_tags macrostrat_info =
      ok (tags_or_none (map (tag80 "Rock Type") rocks
                          ++ text_tags "Geologic Age" age
                          ++ text_tags "Geologic Formation" name))
    /\ (rocks = [] -> age = "" -> name = "" -> crc_tags macrostrat_info = ok PNone)
    /\ Forall (fun tag => exists s, getitem tag "name" = ok (PStr s)
                                    /\ (String.length s <= 80)%nat)
         (map (tag80 "Rock Type") rocks
            ++ text_tags "Geologic Age" age
            ++ text_tags "Geologic Formation" name).
Proof.
  intros macrostrat_info rocktype rocks age name Hrock Hage Hname Hrocks.
  assert (H : crc_tags macrostrat_info =
                ok (tags_or_none (map (tag80 "Rock Type") rocks
                                    ++ text_tags "Geologic Age" age
                                    ++ text_tags "Geologic Formation" name))).
  { unfold crc_tags. rewrite Hrock, Hage, Hname. cbn [rbind ok].
    assert (Hfirst :
              (first <- index0 rocktype ;;
               if negb (is_none first) then
                 rock_types <- py_iter rocktype ;;
                 rock_tags <- rmap (sliced_tag "Rock Type") rock_types ;;
                 ok ([] ++ rock_tags)
               else ok [])%res = ok (map (tag80 "Rock Type") rocks)).
    { destruct Hrocks as [(rest & -> & ->)|(Hne & ->)]; [reflexivity|].
      destruct rocks as [|r rocks]; [contradiction|].
      cbn [map index0 rbind ok is_none negb py_iter].
      rewrite <- (map_cons PStr r rocks), rmap_sliced_tag. reflexivity. }
    destruct (index0 rocktype) as [e|first]; [discriminate|].
    cbn [rbind ok] in Hfirst |- *.
    destruct (negb (is_none first)).
    - destruct (py_iter rocktype) as [e|rock_types]; [discriminate|].
      cbn [rbind ok] in Hfirst |- *.
      destruct (rmap _ rock_types) as [e|rock_tags]; [discriminate|].
      cbn [rbind ok] in Hfirst |- *.
      apply ok_inj in Hfirst. rewrite Hfirst. clear Hfirst.
      destruct age as [|a age], name as [|b name];
        cbn [py_len String.length Nat.ltb Nat.leb rbind ok sliced_tag slice80
               text_tags];
        rewrite tags_or_none_length, <- ?app_assoc, ?app_nil_r; reflexivity.
    - apply ok_inj in Hfirst. rewrite <- Hfirst. clear Hfirst.
      destruct age as [|a age], name as [|b name];
        cbn [py_len String.length Nat.ltb Nat.leb rbind ok sliced_tag slice80
               text_tags];
        rewrite tags_or_none_length, <- ?app_assoc, ?app_nil_r; reflexivity. }
  split; [exact H|]. split; [intros -> -> ->; exact H|].
  rewrite !Forall_app. repeat split.
  - apply Forall_forall. intros tag Hin. apply in_map_iff in Hin.
    destruct Hin as (s & <- & _). apply tag80_name.
  - apply text_tags_name.
  - apply text_tags_name.
Qed.

(** ** The success payload of Macrostrat *)

Lemma in_keys_dict_has (k : string) (d : list (string * pyval)) :
  in_keys k (PDict d) = ok (dict_has k d).
Proof.
  unfold in_keys, keys, dict_keys, dict_has. simpl. f_equal.
  induction d as [|[k' v'] d IH]; simpl; [reflexivity|].
  rewrite String.eqb_sym.
  destruct (String.eqb k' k); [reflexivity | auto].
Qed.

(** C5, as the code has it: for a decoded response that is an object whose
    success member, when present, is an object, [macrostrat_context] returns
    the data member under the success member exactly when the response has a
    success key whose value has a data key, and None otherwise. *)
Theorem macrostrat_context_success_data :
  forall (lat lng r : pyval) (log : list request),
    macrostrat_api (macrostrat_url lat lng) = ok r ->
    readable_response r = true ->
    macrostrat_context lat lng log =
      (ok match success_data r with
          | Some data => data
          | None => PNone
          end,
       log ++ [(Macrostrat, macrostrat_url lat lng)]).
Proof.
  intros lat lng r log Hresponse Hreadable.
  unfold macrostrat_context, io_bind, get, lift. rewrite Hresponse.
  unfold ok at 1. f_equal.
  destruct r as [| | | | |l|d]; try discriminate.
  rewrite in_keys_dict_has. unfold success_data, dict_has, getitem.
  simpl in Hreadable.
  destruct (dict_get "success" d) as [success|]; [|reflexivity].
  cbn [rbind ok].
  destruct success as [| | | | |l|s]; try discriminate.
  rewrite in_keys_dict_has. unfold dict_has. cbn [rbind ok].
  destruct (dict_get "data" s); reflexivity.
Qed.

(** ** The scraper *)

Lemma dict_get_set_same {A} (k : string) (v : A) (d : list (string * A)) :
  dict_get k (dict_set k v d) = Some v.
Proof.
  induction d as [|[k' v'] d IH]; simpl.
  - now rewrite String.eqb_refl.
  - destruct (String.eqb k' k) eqn:E; simpl.
    + now rewrite String.eqb_refl.
    + now rewrite E.
Qed.

Lemma dict_get_set_other {A} (k k' : string) (v : A) (d : list (string * A)) :
  k <> k' -> dict_get k' (dict_set k v d) = dict_get k' d.
Proof.
  intro Hne. induction d as [|[k0 v0] d IH]; simpl.
  - destruct (String.eqb_spec k k'); [contradiction | reflexivity].
  - destruct (String.eqb_spec k0 k) as [->|Hk0]; simpl.
    + destruct (String.eqb_spec k k'); [contradiction | reflexivity].
    + now rewrite IH.
Qed.

Lemma dict_keys_set_present {A} (k : string) (v x : A) (d : list (string * A)) :
  dict_get k d = Some x -> dict_keys (dict_set k v d) = dict_keys d.
Proof.
  unfold dict_keys. induction d as [|[k' v'] d IH]; simpl; [discriminate|].
  destruct (String.eqb_spec k' k) as [->|Hne]; simpl; [reflexivity|].
  intro H. now rewrite IH.
Qed.

Lemma dict_keys_set_In {A} (k k' : string) (v : A) (d : list (string * A)) :
  In k' (dict_keys (dict_set k v d)) <-> k' = k \/ In k' (dict_keys d).
Proof.
  unfold dict_keys. induction d as [|[k0 v0] d IH]; simpl.
  - clear; intuition.
  - destruct (String.eqb_spec k0 k) as [->|Hne]; simpl; clear - IH; intuition.
Qed.

(** *** Rows *)

Lemma row_cells_total (labels : list string) (cols : list node) :
  forall i d_this,
    (i + List.length cols <= List.length labels)%nat ->
    exists d, row_cells labels i cols d_this = ok d.
Proof.
  induction cols as [|col cols IH]; intros i d_this Hlen; simpl in *.
  - now exists d_this.
  - destruct (nth_error labels i) as [label|] eqn:Hnth.
    + apply IH. lia.
    + apply nth_error_None in Hnth. lia.
Qed.

Lemma append_row_keys (target : string) (d_this : pyval)
  (ds ds' : list (string * pyval)) :
  append_row target d_this ds = ok ds' ->
  dict_keys ds' = dict_keys ds
  /\ exists rows, dict_get target ds' = Some (PList rows).
Proof.
  unfold append_row.
  destruct (dict_get target ds) as [[| | | | |rows|]|] eqn:Hget; try discriminate.
  intro H. apply ok_inj in H. subst ds'. split.
  - eapply dict_keys_set_present, Hget.
  - eexists. apply dict_get_set_same.
Qed.

Lemma scrape_rows_keys (labels : list string) (target : string) (rows : list node) :
  forall ds ds',
    scrape_rows labels target rows ds = ok ds' -> dict_keys ds' = dict_keys ds.
Proof.
  induction rows as [|row rows IH]; intros ds ds'; simpl.
  - intro H. apply ok_inj in H. now subst.
  - destruct (row_cells _ _ _ _) as [e|d_this]; [discriminate|]. cbn [rbind].
    destruct (append_row _ _ _) as [e|ds1] eqn:Happend; [discriminate|]. cbn [rbind].
    intro H. apply IH in H. rewrite H.
    now apply append_row_keys in Happend.
Qed.

Lemma scrape_rows_total (labels : list string) (target : string) (rows : list node) :
  forall ds rows0,
    forallb (fun row =>
               (List.length (find_all row "td" any_tag) <=? List.length labels)%nat)
            rows = true ->
    dict_get target ds = Some (PList rows0) ->
    exists ds', scrape_rows labels target rows ds = ok ds'.
Proof.
  induction rows as [|row rows IH]; intros ds rows0 Hrows Hget; simpl in *.
  - now exists ds.
  - apply andb_true_iff in Hrows. destruct Hrows as [Hrow Hrows].
    apply Nat.leb_le in Hrow.
    destruct (row_cells_total labels (find_all row "td" any_tag) 0 [])
      as (d_this & ->); [exact Hrow|].
    cbn [rbind ok]. unfold append_row. rewrite Hget. cbn [rbind ok].
    eapply IH; [exact Hrows | apply dict_get_set_same].
Qed.

(** *** Tables *)

Lemma schema_named_target (labels : list string) (target : string) :
  schema_named labels target_schemas = ok target ->
  target = "depth_age_formation" \/ target = "thin_sections".
Proof.
  unfold target_schemas. cbn [schema_named].
  destruct (labels_eqb _ labels).
  - intro H. apply ok_inj in H. now left.
  - destruct (labels_eqb _ labels); [|discriminate].
    intro H. apply ok_inj in H. now right.
Qed.

Lemma scrape_table_keys (table : node) (ds ds' : list (string * pyval)) :
  scrape_table table ds = ok ds' ->
  exists target,
    table_section table = Some target
    /\ forall k, In k (dict_keys ds') <-> k = target \/ In k (dict_keys ds).
Proof.
  unfold scrape_table, table_section, table_labels.
  destruct (find table "tr") as [first_row|]; [|discriminate]. cbn [rbind ok].
  destruct (schema_named _ target_schemas) as [e|target]; [discriminate|].
  cbn [rbind]. intro H. exists target. split; [reflexivity|].
  intro k. rewrite (scrape_rows_keys _ _ _ _ _ H).
  apply dict_keys_set_In.
Qed.

Lemma scrape_table_total (table : node) (ds : list (string * pyval)) :
  readable_table table = true -> exists ds', scrape_table table ds = ok ds'.
Proof.
  unfold readable_table, scrape_table, table_labels.
  destruct (find table "tr") as [first_row|]; [|discriminate]. cbn [rbind ok].
  destruct (schema_named _ target_schemas) as [e|target]; [discriminate|].
  cbn [rbind]. intro Hrows.
  eapply scrape_rows_total; [exact Hrows | apply dict_get_set_same].
Qed.

Lemma scrape_tables_keys (tables : list node) :
  forall ds ds',
    scrape_tables tables ds = ok ds' ->
    forall k, In k (dict_keys ds') <->
              In k (dict_keys ds)
              \/ exists table, In table tables /\ table_section table = Some k.
Proof.
  induction tables as [|table tables IH]; intros ds ds'; simpl.
  - intro H. apply ok_inj in H. subst ds'. intro k. split; [now left|].
    intros [H|(table & [] & _)]. exact H.
  - destruct (scrape_table table ds) as [e|ds1] eqn:Htable; [discriminate|].
    cbn [rbind]. intros H k.
    destruct (scrape_table_keys _ _ _ Htable) as (target & Hsection & Hkeys).
    rewrite (IH _ _ H k), Hkeys. split.
    + intros [[->|Hin]|(t & Hin & Ht)].
      * right. exists table. auto.
      * now left.
      * right. exists t. auto.
    + intros [Hin|(t & [<-|Hin] & Ht)].
      * left. now right.
      * left. left. congruence.
      * right. exists t. auto.
Qed.

Lemma scrape_tables_total (tables : list node) :
  forall ds,
    forallb readable_table tables = true ->
    exists ds', scrape_tables tables ds = ok ds'.
Proof.
  induction tables as [|table tables IH]; intros ds Hread; simpl in *.
  - now exists ds.
  - apply andb_true_iff in Hread. destruct Hread as [Htable Htables].
    destruct (scrape_table_total table ds Htable) as (ds1 & ->).
    cbn [rbind]. now apply IH.
Qed.

(** *** Links *)

Lemma scrape_links_flat_map (sections : list node) :
  forall photos documents,
    scrape_links sections photos documents =
      (photos ++ flat_map (section_links "see photo") sections,
       documents ++ flat_map (section_links "download analysis document") sections).
Proof.
  induction sections as [|section sections IH]; intros photos documents; simpl.
  - now rewrite !app_nil_r.
  - now rewrite IH, <- !app_assoc.
Qed.

Lemma py_of_attr_inj (a b : option string) : py_of_attr a = py_of_attr b -> a = b.
Proof.
  destruct a, b; simpl; congruence.
Qed.

Lemma NoDup_map_injective {A B} (f : A -> B) (l : list A) :
  (forall a b, f a = f b -> a = b) -> NoDup l -> NoDup (map f l).
Proof.
  intros Hinj Hl. induction Hl as [|a l Hnotin Hl IH]; simpl; constructor; auto.
  intro Hin. apply in_map_iff in Hin. destruct Hin as (b & Heq & Hin).
  apply Hinj in Heq. now subst b.
Qed.

Lemma section_links_NoDup (title : string) (section : node) :
  NoDup (section_links title section).
Proof using set_order_NoDup.
  unfold section_links.
  apply NoDup_map_injective; [apply py_of_attr_inj | apply set_order_NoDup].
Qed.

Lemma section_links_In (title : string) (section : node) (link : pyval) :
  In link (section_links title section) <->
  exists anchor,
    In anchor (titled_anchors title section)
    /\ link = py_of_attr (get_attr "href" anchor).
Proof using set_order_In.
  unfold section_links, titled_anchors. rewrite in_map_iff. split.
  - intros (href & <- & Hin). apply set_order_In, in_map_iff in Hin.
    destruct Hin as (anchor & <- & Hin). now exists anchor.
  - intros (anchor & Hin & ->). exists (get_attr "href" anchor). split; [reflexivity|].
    apply set_order_In, in_map. exact Hin.
Qed.

Lemma page_links_nil (title : string) (soup : node) :
  flat_map (section_links title) (report_sections soup) = [] <->
  page_anchors title soup = [].
Proof using set_order_In.
  unfold page_anchors.
  induction (report_sections soup) as [|section sections IH]; simpl;
    [split; reflexivity|].
  split; intro H; apply app_eq_nil in H; destruct H as [H1 H2];
    apply IH in H2; rewrite H2, app_nil_r.
  - destruct (titled_anchors title section) as [|anchor anchors] eqn:E; [reflexivity|].
    exfalso.
    assert (Hin : In (py_of_attr (get_attr "href" anchor)) (section_links title section)).
    { apply section_links_In. exists anchor. rewrite E. split; [now left | reflexivity]. }
    now rewrite H1 in Hin.
  - destruct (section_links title section) as [|link links] eqn:E; [reflexivity|].
    exfalso.
    assert (Hin : In link (section_links title section)) by (rewrite E; now left).
    apply section_links_In in Hin. destruct Hin as (anchor & Hin & _).
    now rewrite H1 in Hin.
Qed.

Lemma dict_get_In_keys {A} (k : string) (v : A) (d : list (string * A)) :
  dict_get k d = Some v -> In k (dict_keys d).
Proof.
  unfold dict_keys. induction d as [|[k' v'] d IH]; simpl; [discriminate|].
  destruct (String.eqb_spec k' k); [now left | intro H; right; auto].
Qed.

Lemma length_pos_not_nil {A} (l : list A) : (0 <? List.length l)%nat = false <-> l = [].
Proof.
  destruct l; simpl; split; (reflexivity || discriminate).
Qed.

Lemma scrape_with_links (soup : node) (tables_data : list (string * pyval)) :
  scrape_tables (report_tables soup) [] = ok tables_data ->
  scrape soup = ok (dict_or_none (with_links soup tables_data)).
Proof.
  unfold scrape, with_links, report_tables, report_sections. intros ->.
  cbn [rbind ok]. rewrite scrape_links_flat_map. cbn [app].
  destruct (if (0 <? _)%nat then _ else _); reflexivity.
Qed.

Lemma scrape_inv (soup : node) (result : pyval) :
  scrape soup = ok result ->
  exists tables_data,
    scrape_tables (report_tables soup) [] = ok tables_data
    /\ result = dict_or_none (with_links soup tables_data).
Proof.
  intro H.
  destruct (scrape_tables (report_tables soup) []) as [e|tables_data] eqn:Htables.
  - unfold scrape, report_tables in *. rewrite Htables in H. discriminate.
  - exists tables_data. split; [reflexivity|].
    rewrite (scrape_with_links _ _ Htables) in H. now apply ok_inj in H.
Qed.

Lemma extract_crc_data_scrape (crcid : pyval) (sample_type : string)
  (soup : node) (log : list request) :
  report_site (report_url sample_type crcid) = ok soup ->
  extract_crc_data crcid sample_type log =
    (scrape soup, log ++ [(ReportSite, report_url sample_type crcid)]).
Proof.
  intro H. unfold extract_crc_data, io_bind, get, lift. now rewrite H.
Qed.

Lemma with_links_keys (soup : node) (tables_data : list (string * pyval)) (k : string) :
  In k (dict_keys (with_links soup tables_data)) <->
  In k (dict_keys tables_data)
  \/ (k = "photos" /\ page_anchors "see photo" soup <> [])
  \/ (k = "documents" /\ page_anchors "download analysis document" soup <> []).
Proof using set_order_In.
  unfold with_links.
  rewrite <- (page_links_nil "see photo"),
          <- (page_links_nil "download analysis document").
  destruct (0 <? List.length (flat_map (section_links "see photo") _))%nat eqn:Hp;
    destruct (0 <? List.length
                     (flat_map (section_links "download analysis document") _))%nat
      eqn:Hd;
    rewrite ?dict_keys_set_In;
    try apply length_pos_not_nil in Hp; try apply length_pos_not_nil in Hd;
    try (assert (Hp' : flat_map (section_links "see photo") (report_sections soup) <> [])
          by (intro E; apply length_pos_not_nil in E; congruence));
    try (assert (Hd' : flat_map (section_links "download analysis document")
                         (report_sections soup) <> [])
          by (intro E; apply length_pos_not_nil in E; congruence));
    clear - Hp Hd Hp' Hd' || clear - Hp Hd Hp' || clear - Hp Hd Hd' || clear - Hp Hd;
    intuition congruence.
Qed.

(** C6, as the code has it: for a page all of whose tables of class report2
    can be read (a first row matching one of the two templates, no later
    row wider than it), [extract_crc_data] returns None when the page has no
    such table and no photo or document anchor inside a div of class
    report2, and otherwise a mapping whose keys are exactly the sections of
    its tables, "photos" when a photo anchor was found and "documents" when
    a document anchor was found. *)
Theorem extract_crc_data_populated :
  forall (crcid : pyval) (sample_type : string) (soup : node) (log : list request),
    report_site (report_url sample_type crcid) = ok soup ->
    forallb readable_table (report_tables soup) = true ->
    exists data_structures,
      extract_crc_data crcid sample_type log =
        (ok (dict_or_none data_structures),
         log ++ [(ReportSite, report_url sample_type crcid)])
      /\ (data_structures = [] <->
          report_tables soup = []
          /\ page_anchors "see photo" soup = []
          /\ page_anchors "download analysis document" soup = [])
      /\ (forall k,
            In k (dict_keys data_structures) <->
            (exists table, In table (report_tables soup) /\ table_section table = Some k)
            \/ (k = "photos" /\ page_anchors "see photo" soup <> [])
            \/ (k = "documents" /\ page_anchors "download analysis document" soup <> [])).
Proof using set_order_In.
  intros crcid sample_type soup log Hpage Hread.
  destruct (scrape_tables_total _ [] Hread) as (tables_data & Htables).
  exists (with_links soup tables_data).
  assert (Hkeys : forall k,
            In k (dict_keys (with_links soup tables_data)) <->
            (exists table, In table (report_tables soup) /\ table_section table = Some k)
            \/ (k = "photos" /\ page_anchors "see photo" soup <> [])
            \/ (k = "documents" /\ page_anchors "download analysis document" soup <> [])).
  { intro k. rewrite with_links_keys, (scrape_tables_keys _ _ _ Htables k).
    simpl. clear. tauto. }
  split; [|split].
  - rewrite (extract_crc_data_scrape _ _ _ _ Hpage).
    now rewrite (scrape_with_links _ _ Htables).
  - split.
    + intro Hnil. rewrite Hnil in Hkeys. simpl in Hkeys. repeat split.
      * destruct (report_tables soup) as [|table tables] eqn:E; [reflexivity|].
        exfalso.
        simpl in Hread. apply andb_true_iff in Hread. destruct Hread as [Htable _].
        destruct (scrape_table_total table [] Htable) as (ds & Hds).
        destruct (scrape_table_keys _ _ _ Hds) as (target & Hsection & _).
        apply (Hkeys target). left. exists table. split; [now left | exact Hsection].
      * destruct (page_anchors "see photo" soup) eqn:E; [reflexivity|].
        exfalso. apply (Hkeys "photos"). right. left. split; [reflexivity|discriminate].
      * destruct (page_anchors "download analysis document" soup) eqn:E; [reflexivity|].
        exfalso. apply (Hkeys "documents"). right. right.
        split; [reflexivity|discriminate].
    + intros (Ht & Hp & Hd).
      destruct (with_links soup tables_data) as [|[k v] rest]; [reflexivity|].
      exfalso. specialize (Hkeys k). simpl in Hkeys.
      destruct Hkeys as [Hkeys _]. rewrite Ht, Hp, Hd in Hkeys.
      destruct Hkeys as [(table & [] & _)|[[_ H]|[_ H]]]; auto.
  - exact Hkeys.
Qed.

(** C8, as the code has it: the photo list and the document list that
    [extract_crc_data] returns are the links of the divs of class report2
    one div after the other, and the links taken from one div hold no
    duplicate: they are the distinct link targets of that div's anchors. *)
Theorem extract_crc_data_links_distinct_per_section :
  forall (crcid : pyval) (sample_type : string) (soup : node)
         (log log' : list request) (d : list (string * pyval))
         (key title : string) (links : list pyval),
    report_site (report_url sample_type crcid) = ok soup ->
    extract_crc_data crcid sample_type log = (ok (PDict d), log') ->
    (key = "photos" /\ title = "see photo")
    \/ (key = "documents" /\ title = "download analysis document") ->
    dict_get key d = Some (PList links) ->
    links = flat_map (section_links title) (report_sections soup)
    /\ forall section,
         In section (report_sections soup) ->
         NoDup (section_links title section)
         /\ forall link,
              In link (section_links title section) <->
              exists anchor,
                In anchor (titled_anchors title section)
                /\ link = py_of_attr (get_attr "href" anchor).
Proof using set_order_In set_order_NoDup.
  intros crcid sample_type soup log log' d key title links Hpage Hrun Hkey Hget.
  split; [|intros section _; split;
           [apply section_links_NoDup | intro link; apply section_links_In]].
  rewrite (extract_crc_data_scrape _ _ _ _ Hpage) in Hrun.
  injection Hrun as Hscrape _.
  apply scrape_inv in Hscrape. destruct Hscrape as (tables_data & Htables & Hd).
  assert (Hnone : forall k, k = "photos" \/ k = "documents" ->
                            dict_get k tables_data = None).
  { intros k Hk. destruct (dict_get k tables_data) as [v|] eqn:E; [|reflexivity].
    exfalso. apply dict_get_In_keys in E.
    apply (scrape_tables_keys _ _ _ Htables) in E.
    destruct E as [[]|(table & _ & Hsection)].
    unfold table_section in Hsection.
    destruct (table_labels table) as [labels|]; [|discriminate].
    destruct (schema_named labels target_schemas) as [e|target] eqn:Hschema;
      [discriminate|].
    apply schema_named_target in Hschema. injection Hsection as ->.
    destruct Hk as [-> | ->], Hschema as [E | E]; discriminate. }
  assert (Hd' : d = with_links soup tables_data).
  { destruct (with_links soup tables_data); simpl in Hd; congruence. }
  subst d. unfold with_links in Hget.
  destruct Hkey as [[-> ->]|[-> ->]].
  - destruct (0 <? List.length
                     (flat_map (section_links "download analysis document") _))%nat;
      [rewrite dict_get_set_other in Hget by discriminate|];
      (destruct (0 <? List.length (flat_map (section_links "see photo") _))%nat;
       [rewrite dict_get_set_same in Hget; congruence
       |rewrite Hnone in Hget by auto; discriminate]).
  - destruct (0 <? List.length
                     (flat_map (section_links "download analysis document") _))%nat;
      [rewrite dict_get_set_same in Hget; congruence|].
    destruct (0 <? List.length (flat_map (section_links "see photo") _))%nat;
      [rewrite dict_get_set_other in Hget by discriminate|];
      rewrite Hnone in Hget by auto; discriminate.
Qed.

(** ** The mapper and the enricher *)

Lemma extract_crc_data_result (crcid : pyval) (sample_type : string)
  (log log' : list request) (extracted_data : pyval) :
  extract_crc_data crcid sample_type log = (ok extracted_data, log') ->
  exists d, extracted_data = dict_or_none d.
Proof.
  unfold extract_crc_data, io_bind, get, lift.
  destruct (report_site _) as [e|soup]; [discriminate|].
  intro H. injection H as Hscrape _.
  apply scrape_inv in Hscrape. destruct Hscrape as (tables_data & _ & ->).
  now eexists.
Qed.

Lemma page_properties_total (d : list (string * pyval)) (additional_props : pyval) :
  exists props, page_properties (dict_or_none d) additional_props = ok props.
Proof.
  unfold page_properties.
  destruct d as [|kv d]; [now eexists|].
  cbn [dict_or_none is_none negb]. rewrite in_keys_dict_has.
  cbn [rbind ok]. unfold dict_has, getitem.
  destruct (dict_get "depth_age_formation" (kv :: d)); now eexists.
Qed.

Lemma macrostrat_context_log (lat lng : pyval) (log : list request) :
  snd (macrostrat_context lat lng log) = log ++ [(Macrostrat, macrostrat_url lat lng)].
Proof.
  unfold macrostrat_context, io_bind, get, lift.
  destruct (macrostrat_api _); reflexivity.
Qed.

Lemma has_float_coordinates_both (crc_record properties lat lng : pyval) :
  getitem crc_record "properties" = ok properties ->
  getitem properties "lat" = ok lat ->
  getitem properties "lng" = ok lng ->
  has_float_coordinates crc_record = ok (is_float lat && is_float lng).
Proof.
  intros Hprops Hlat Hlng. unfold has_float_coordinates.
  rewrite Hprops. cbn [rbind ok]. rewrite Hlat. cbn [rbind ok].
  destruct (is_float lat); [|reflexivity].
  rewrite Hlng. reflexivity.
Qed.

(** The test of the mapper succeeds exactly on float coordinates. *)
Lemma has_float_coordinates_spec (crc_record : pyval) :
  match float_coordinates crc_record with
  | Some (lat, lng) =>
      has_float_coordinates crc_record = ok true
      /\ (properties <- getitem crc_record "properties" ;;
          getitem properties "lat")%res = ok lat
      /\ (properties <- getitem crc_record "properties" ;;
          getitem properties "lng")%res = ok lng
  | None => has_float_coordinates crc_record <> ok true
  end.
Proof.
  unfold float_coordinates, has_float_coordinates.
  destruct (getitem crc_record "properties") as [e|properties]; [discriminate|].
  cbn [rbind].
  destruct (getitem properties "lat") as [e|lat]; [discriminate|].
  cbn [rbind].
  destruct (getitem properties "lng") as [e|lng].
  - destruct (is_float lat); discriminate.
  - cbn [rbind]. destruct (is_float lat), (is_float lng); cbn [andb];
      (discriminate || (repeat split; reflexivity)).
Qed.

(** C7, as the code has it: for a record that has an id and whose report
    page was scraped, [sb_item_from_crcwc] calls the enricher exactly when
    the lat and lng properties are both present and both floats; when they
    are present and one of them is anything else (None, an integer, a
    string) it sends no request to Macrostrat and builds the item from the
    geologic context its caller supplied. *)
Theorem sb_item_from_crcwc_enriches_floats :
  forall (sample_type : string)
         (crc_record additional_props macrostrat_info : pyval)
         (crcid extracted_data : pyval) (log log1 : list request),
    getitem crc_record "id" = ok crcid ->
    extract_crc_data crcid sample_type log = (ok extracted_data, log1) ->
    snd (sb_item_from_crcwc sample_type crc_record additional_props
           macrostrat_info log)
    = log1 ++ match float_coordinates crc_record with
              | Some (lat, lng) => [(Macrostrat, macrostrat_url lat lng)]
              | None => []
              end
    /\ (forall properties lat lng,
          getitem crc_record "properties" = ok properties ->
          getitem properties "lat" = ok lat ->
          getitem properties "lng" = ok lng ->
          is_float lat && is_float lng = false ->
          sb_item_from_crcwc sample_type crc_record additional_props
            macrostrat_info log
          = ((page_props <- page_properties extracted_data additional_props ;;
              sb_item sample_type crc_record extracted_data page_props
                macrostrat_info)%res,
             log1)).
Proof.
  intros sample_type crc_record additional_props macrostrat_info
         crcid extracted_data log log1 Hid Hextract.
  destruct (extract_crc_data_result _ _ _ _ _ Hextract) as (d & Hshape).
  destruct (page_properties_total d additional_props) as (page_props & Hpage).
  rewrite <- Hshape in Hpage.
  unfold ok in Hid, Hpage, Hextract.
  unfold sb_item_from_crcwc, io_bind, lift.
  rewrite Hid. cbv beta iota.
  rewrite Hextract. cbv beta iota.
  rewrite Hpage. cbv beta iota.
  split.
  - pose proof (has_float_coordinates_spec crc_record) as Hspec.
    destruct (float_coordinates crc_record) as [[lat lng]|].
    + destruct Hspec as (-> & -> & ->). unfold ok. cbv beta iota.
      pose proof (macrostrat_context_log lat lng log1) as Hlog.
      destruct (macrostrat_context lat lng log1) as [[e|info] log2];
        simpl in Hlog |- *; exact Hlog.
    + rewrite app_nil_r.
      destruct (has_float_coordinates crc_record) as [e|[|]];
        [reflexivity | now contradiction Hspec | ].
      unfold io_ret. reflexivity.
  - intros properties lat lng Hprops Hlat Hlng Hboth.
    rewrite (has_float_coordinates_both _ _ _ _ Hprops Hlat Hlng), Hboth.
    unfold io_ret, ok. cbn [rbind]. reflexivity.
Qed.

(** ** Further properties: identifiers *)

(** X1: for a record that has the library-number and API-number fields,
    [crc_identifiers] returns the source key, then the library number if it
    is not None, then the API number if it is not None; each of the two is
    left out on its own when it is None. *)
Theorem crc_identifiers_shape :
  forall (identifier : pyval) (sample_type : string) (crc_record libno api : pyval),
    record_field sample_type "source_identifier" crc_record = ok libno ->
    record_field sample_type "api_identifier" crc_record = ok api ->
    crc_identifiers identifier sample_type crc_record =
      ok (PList (PDict [ ("type", PStr "uniqueKey");
                         ("scheme", PStr "CRC Well Catalog Database ID");
                         ("key", identifier) ]
                   :: optional_key "CRC Library Number" libno
                   ++ optional_key "American Petroleum Institute Number" api)).
Proof.
  intros identifier sample_type crc_record libno api Hlib Hapi.
  unfold crc_identifiers, optional_key. rewrite Hlib, Hapi. cbn [rbind ok].
  destruct (is_none libno), (is_none api); reflexivity.
Qed.

Lemma mapped_unknown (sample_type concept : string) :
  sample_type <> "core" -> sample_type <> "cutting" ->
  mapped sample_type concept = raise KeyError.
Proof.
  intros Hcore Hcutting. unfold mapped, property_mapping. cbn [dict_get].
  destruct (String.eqb_spec "core" sample_type); [congruence|].
  destruct (String.eqb_spec "cutting" sample_type); [congruence|].
  reflexivity.
Qed.

(** X2: for a sample type other than "core" and "cutting" the lookup table
    has no entry, and [crc_identifiers], [crc_body] and [sb_item] raise
    KeyError whatever the record and the other arguments are. *)
Theorem unknown_sample_type_KeyError :
  forall (sample_type : string)
         (identifier crc_record extracted_data additional_props macrostrat_info : pyval),
    sample_type <> "core" -> sample_type <> "cutting" ->
    crc_identifiers identifier sample_type crc_record = raise KeyError
    /\ crc_body sample_type crc_record additional_props macrostrat_info = raise KeyError
    /\ sb_item sample_type crc_record extracted_data additional_props macrostrat_info
       = raise KeyError.
Proof.
  intros sample_type identifier crc_record extracted_data additional_props
         macrostrat_info Hcore Hcutting.
  unfold crc_identifiers, crc_body, sb_item, record_field.
  rewrite !(mapped_unknown _ _ Hcore Hcutting).
  repeat split; reflexivity.
Qed.

(** X3: for a known sample type and a record that is a mapping without the
    library-number field, or with it and without the API-number field,
    [crc_identifiers] raises KeyError. *)
Theorem crc_identifiers_missing_field :
  forall (identifier : pyval) (sample_type library_field api_field : string)
         (properties : list (string * pyval)),
    mapped sample_type "source_identifier" = ok library_field ->
    mapped sample_type "api_identifier" = ok api_field ->
    dict_get library_field properties = None
    \/ dict_get api_field properties = None ->
    crc_identifiers identifier sample_type (PDict properties) = raise KeyError.
Proof.
  intros identifier sample_type library_field api_field properties Hlib Hapi Hmissing.
  unfold crc_identifiers, record_field. rewrite Hlib, Hapi. cbn [rbind ok getitem].
  destruct (dict_get library_field properties) as [libno|]; [|reflexivity].
  cbn [rbind ok]. destruct Hmissing as [Hnone|Hnone]; [discriminate|].
  rewrite Hnone. reflexivity.
Qed.

(** ** Further properties: web links *)

Lemma split_nonempty (c : ascii) (s : string) : split c s <> [].
Proof.
  destruct s as [|a s]; simpl; [discriminate|].
  destruct (Ascii.eqb a c); [discriminate|].
  destruct (split c s); discriminate.
Qed.

Lemma last_item_last {A} (l : list A) (d : A) : l <> [] -> last_item l = ok (last l d).
Proof.
  intro Hne. destruct (exists_last Hne) as (init & x & ->).
  now rewrite last_item_snoc, last_last.
Qed.

Lemma download_link_str (label kind link : string) :
  download_link label kind (PStr link) = ok (link_entry label kind link).
Proof.
  unfold download_link, trailing_segment.
  rewrite (last_item_last _ "" (split_nonempty "/" link)).
  reflexivity.
Qed.

Lemma all_some_map_Some {A} (l : list A) : all_some (map Some l) = Some l.
Proof.
  induction l as [|a l IH]; simpl; [reflexivity | now rewrite IH].
Qed.

Lemma all_some_In_None {A} (l : list (option A)) : In None l -> all_some l = None.
Proof.
  induction l as [|[a|] l IH]; simpl; [contradiction | | reflexivity].
  intros [H|H]; [discriminate|]. now rewrite IH.
Qed.

Lemma rmap_download_link (label kind : string) (hrefs : list (option string)) :
  rmap (download_link label kind) (map py_of_attr hrefs) =
    match all_some hrefs with
    | Some links => ok (map (link_entry label kind) links)
    | None => raise AttributeError
    end.
Proof.
  induction hrefs as [|[link|] hrefs IH]; [reflexivity | | reflexivity].
  cbn [map py_of_attr rmap all_some]. rewrite download_link_str, IH.
  destruct (all_some hrefs); reflexivity.
Qed.

Lemma append_links_scraped (key label kind : string) (scraped : list (string * pyval))
  (hrefs : list (option string)) (web_links : list pyval) :
  scraped_links key scraped hrefs ->
  append_links key label kind (PDict scraped) web_links =
    match all_some hrefs with
    | Some links => ok (web_links ++ map (link_entry label kind) links)
    | None => raise AttributeError
    end.
Proof.
  unfold append_links. rewrite in_keys_dict_has. unfold dict_has. cbn [rbind ok getitem].
  intros [[Hnone ->]|Hsome].
  - rewrite Hnone. cbn [all_some map]. now rewrite app_nil_r.
  - rewrite Hsome. cbn [rbind ok py_iter]. rewrite rmap_download_link.
    destruct (all_some hrefs); reflexivity.
Qed.

Lemma crc_weblinks_scraped (sample_type : string) (identifier : pyval)
  (scraped : list (string * pyval)) (docs photos : list (option string)) :
  scraped_links "documents" scraped docs ->
  scraped_links "photos" scraped photos ->
  crc_weblinks sample_type identifier (PDict scraped) =
    match all_some docs, all_some photos with
    | Some doc_links, Some photo_links =>
        ok (PList (report_link sample_type identifier
                     :: map (link_entry "Download" "Analysis File") doc_links
                     ++ map (link_entry "Photo" "Photo") photo_links))
    | _, _ => raise AttributeError
    end.
Proof.
  intros Hdocs Hphotos. unfold crc_weblinks. cbn [is_none negb].
  rewrite (append_links_scraped _ _ _ _ _ _ Hdocs).
  destruct (all_some docs) as [doc_links|]; [|reflexivity].
  cbn [rbind ok].
  rewrite (append_links_scraped _ _ _ _ _ _ Hphotos).
  destruct (all_some photos) as [photo_links|]; [|reflexivity].
  cbn [rbind ok]. now rewrite <- app_assoc.
Qed.

Lemma crc_weblinks_None_link (sample_type : string) (identifier : pyval)
  (scraped : list (string * pyval)) (docs photos : list (option string)) :
  scraped_links "documents" scraped docs ->
  scraped_links "photos" scraped photos ->
  In None docs \/ In None photos ->
  crc_weblinks sample_type identifier (PDict scraped) = raise AttributeError.
Proof.
  intros Hdocs Hphotos Hnone.
  rewrite (crc_weblinks_scraped _ _ _ _ _ Hdocs Hphotos).
  destruct Hnone as [Hin|Hin]; rewrite (all_some_In_None _ Hin);
    [reflexivity | destruct (all_some docs); reflexivity].
Qed.

(** X4: without scraped data [crc_weblinks] returns the report link alone;
    with scraped data whose links are strings it returns the report link,
    then one entry per document link, then one entry per photo link, each in
    the order of its list and titled with the last piece of the link. *)
Theorem crc_weblinks_entries :
  forall (sample_type : string) (identifier : pyval)
         (scraped : list (string * pyval)) (docs photos : list string),
    scraped_links "documents" scraped (map Some docs) ->
    scraped_links "photos" scraped (map Some photos) ->
    crc_weblinks sample_type identifier PNone
    = ok (PList [ report_entry ("https://my.usgs.gov/crcwc/" +++ sample_type
                                  +++ "/report/" +++ py_str identifier) ])
    /\ crc_weblinks sample_type identifier (PDict scraped)
       = ok (PList (report_entry ("https://my.usgs.gov/crcwc/" +++ sample_type
                                    +++ "/report/" +++ py_str identifier)
                      :: map (link_entry "Download" "Analysis File") docs
                      ++ map (link_entry "Photo" "Photo") photos)).
Proof.
  intros sample_type identifier scraped docs photos Hdocs Hphotos.
  split; [reflexivity|].
  rewrite (crc_weblinks_scraped _ _ _ _ _ Hdocs Hphotos), !all_some_map_Some.
  reflexivity.
Qed.

(** X5: when a scraped document or photo link is None (an anchor without
    [href]), [crc_weblinks] raises AttributeError. *)
Theorem crc_weblinks_missing_link :
  forall (sample_type : string) (identifier : pyval)
         (scraped : list (string * pyval)) (docs photos : list (option string)),
    scraped_links "documents" scraped docs ->
    scraped_links "photos" scraped photos ->
    In None docs \/ In None photos ->
    crc_weblinks sample_type identifier (PDict scraped) = raise AttributeError.
Proof.
  intros sample_type identifier scraped docs photos Hdocs Hphotos Hnone.
  exact (crc_weblinks_None_link _ _ _ docs photos Hdocs Hphotos Hnone).
Qed.

(** ** Further properties: body *)

Lemma is_none_false (v : pyval) : v <> PNone -> is_none v = false.
Proof.
  destruct v; [contradiction | reflexivity ..].
Qed.

(** X6: the body [crc_body] produces holds the heading of the web-page
    properties followed by their JSON serialization when they are not None,
    and the heading of the Macrostrat information followed by its JSON
    serialization when it is not None. *)
Theorem crc_body_optional_sections :
  forall (sample_type : string)
         (crc_record additional_props macrostrat_info : pyval) (body : string),
    crc_body sample_type crc_record additional_props macrostrat_info = ok body ->
    (additional_props <> PNone ->
     Contains ("<h4>Properties from Web Page</h4>" +++ "<div>"
                 +++ json_dumps additional_props +++ "</div>") body)
    /\ (macrostrat_info <> PNone ->
        Contains ("<h4>Geologic Map Information from Macrostrat</h4>" +++ "<div>"
                    +++ json_dumps macrostrat_info +++ "</div>") body).
Proof.
  intros sample_type crc_record additional_props macrostrat_info body.
  unfold crc_body.
  destruct (record_field sample_type "source_identifier" crc_record)
    as [e|libno]; [discriminate|].
  destruct (record_field sample_type "site_operator" crc_record)
    as [e|oper]; [discriminate|].
  cbn [rbind]. intro H. apply ok_inj in H. subst body.
  match goal with |- context [fstring ?l] => set (para := fstring l) end.
  split; intro Hsome; apply is_none_false in Hsome; rewrite Hsome; cbn [negb].
  - set (head := ((((para +++ "<h4>Properties from ArcGIS MapServer</h4>") +++ "<div>")
                     +++ json_dumps crc_record) +++ "</div>")).
    destruct (negb (is_none macrostrat_info)).
    + eexists head, _. rewrite !append_assoc. reflexivity.
    + exists head, "". rewrite !append_assoc. reflexivity.
  - match goal with
    | |- Contains _ ((((?head +++ _) +++ _) +++ _) +++ _) => exists head, ""
    end.
    rewrite !append_assoc. reflexivity.
Qed.

(** ** Further properties: theme tags *)

(** X7: when the rock-type list is empty, [crc_tags] raises IndexError,
    whatever the age and the formation name are. *)
Theorem crc_tags_no_rock_type :
  forall (macrostrat_info : pyval),
    getitem macrostrat_info "rocktype" = ok (PList []) ->
    crc_tags macrostrat_info = raise IndexError.
Proof.
  intros macrostrat_info Hrock. unfold crc_tags. rewrite Hrock. reflexivity.
Qed.

Lemma rmap_sliced_tag_None (scheme : string) (rocks : list (option string)) :
  In None rocks ->
  rmap (sliced_tag scheme) (map py_of_attr rocks) = raise TypeError.
Proof.
  induction rocks as [|[r|] rocks IH]; simpl; [contradiction | | reflexivity].
  intros [H|H]; [discriminate|]. now rewrite IH.
Qed.

(** X8: only the first rock type is tested for None: when the list starts
    with a string and holds None further on, [crc_tags] raises TypeError. *)
Theorem crc_tags_later_None :
  forall (macrostrat_info : pyval) (first : string) (rocks : list (option string)),
    getitem macrostrat_info "rocktype"
    = ok (PList (PStr first :: map py_of_attr rocks)) ->
    In None rocks ->
    crc_tags macrostrat_info = raise TypeError.
Proof.
  intros macrostrat_info first rocks Hrock Hnone.
  unfold crc_tags. rewrite Hrock.
  cbn [rbind ok index0 is_none negb py_iter rmap sliced_tag slice80].
  now rewrite (rmap_sliced_tag_None _ _ Hnone).
Qed.

(** ** Further properties: the enricher and the fetcher *)

(** X9: [macrostrat_context] sends its one request whatever comes back; a
    failure of the request is passed on, and a response that is not an
    object, or whose success member is not an object, raises
    AttributeError. *)
Theorem macrostrat_context_failures :
  forall (lat lng : pyval) (log : list request),
    snd (macrostrat_context lat lng log) = log ++ [(Macrostrat, macrostrat_url lat lng)]
    /\ (forall e, macrostrat_api (macrostrat_url lat lng) = inl e ->
                  fst (macrostrat_context lat lng log) = inl e)
    /\ (forall r, macrostrat_api (macrostrat_url lat lng) = ok r ->
                  readable_response r = false ->
                  fst (macrostrat_context lat lng log) = raise AttributeError).
Proof.
  intros lat lng log. split; [apply macrostrat_context_log|].
  unfold macrostrat_context, io_bind, get, lift. split.
  - intros e ->. reflexivity.
  - intros r Hresponse Hunreadable. unfold ok in Hresponse. rewrite Hresponse.
    cbn [fst].
    destruct r as [| | | | |l|d]; try reflexivity.
    rewrite in_keys_dict_has. unfold dict_has, getitem.
    simpl in Hunreadable.
    destruct (dict_get "success" d) as [success|]; [|discriminate].
    cbn [rbind ok].
    destruct success; try reflexivity. discriminate.
Qed.

Lemma Contains_app_l (t p s : string) : Contains t s -> Contains t (p +++ s).
Proof.
  intros (pre & post & ->). exists (p +++ pre), post. now rewrite append_assoc.
Qed.

Lemma Contains_join_pair (sep x y z : string) (post : list string) :
  forall (p : string) (pre : list string),
    Contains (sep +++ x +++ sep +++ y +++ sep)
             (join sep ((p :: pre) ++ x :: y :: z :: post)).
Proof.
  intros p pre. revert p.
  induction pre as [|q pre IH]; intro p.
  - exists p, (join sep (z :: post)). cbn [app join].
    now rewrite !append_assoc.
  - change (join sep ((p :: q :: pre) ++ x :: y :: z :: post))
      with (p +++ sep +++ join sep ((q :: pre) ++ x :: y :: z :: post)).
    do 2 apply Contains_app_l. apply IH.
Qed.

(** X10: for "core" and "cutting" [crcwc_items] sends one request, whose URL
    carries the offset and the record count it was given, and returns what
    the service answers, a failure included. *)
Theorem crcwc_items_paging :
  forall (sample_type : string) (record_count offset : pyval) (log : list request),
    sample_type = "core" \/ sample_type = "cutting" ->
    exists url,
      crcwc_items sample_type record_count offset log
      = (feature_service url, log ++ [(FeatureService, url)])
      /\ Contains ("&" +++ ("resultOffset=" +++ py_str offset)
                     +++ "&" +++ ("resultRecordCount=" +++ py_str record_count)
                     +++ "&")
                  url.
Proof.
  intros sample_type record_count offset log [-> | ->];
    unfold crcwc_items; cbn [String.eqb Ascii.eqb Bool.eqb];
    unfold io_bind, lift, get, io_ret, ok;
    change (fstring [?a; str_of_Z ?l; ?b; ?q]) with (a +++ str_of_Z l +++ b +++ q);
    match goal with |- context [feature_service ?u] => exists u end;
    (split; [destruct (feature_service _); reflexivity|]);
    do 3 apply Contains_app_l;
    exact (Contains_join_pair "&"
             ("resultOffset=" +++ py_str offset)
             ("resultRecordCount=" +++ py_str record_count)
             "returnExtentsOnly=false" ["f=geojson"]
             "where=0%3D0"
             [ "outFields=*"; "returnGeometry=true"; "returnIdsOnly=false";
               "returnCountOnly=false"; "returnZ=false"; "returnM=false";
               "returnDistinctValues=false" ]).
Qed.

(** ** Further properties: the scraper *)

Lemma table_section_target (table : node) (target : string) :
  table_section table = Some target ->
  target = "depth_age_formation" \/ target = "thin_sections".
Proof.
  unfold table_section.
  destruct (table_labels table) as [labels|]; [|discriminate].
  destruct (schema_named labels target_schemas) as [e|t] eqn:Hschema; [discriminate|].
  intro H. injection H as <-. exact (schema_named_target labels t Hschema).
Qed.

Lemma with_links_keys_among (soup : node) (tables_data : list (string * pyval))
  (k : string) :
  In k (dict_keys (with_links soup tables_data)) ->
  In k (dict_keys tables_data) \/ k = "photos" \/ k = "documents".
Proof.
  unfold with_links.
  destruct (0 <? List.length (flat_map (section_links "see photo") _))%nat;
    destruct (0 <? List.length
                     (flat_map (section_links "download analysis document") _))%nat;
    rewrite ?dict_keys_set_In; clear; tauto.
Qed.

(** X11: [extract_crc_data] sends one request, to the report site, whatever
    the page is; when it returns, it returns None or a mapping that is not
    empty and whose keys are among "depth_age_formation", "thin_sections",
    "photos" and "documents". *)
Theorem extract_crc_data_result_keys :
  forall (crcid : pyval) (sample_type : string) (log : list request),
    snd (extract_crc_data crcid sample_type log)
    = log ++ [(ReportSite, report_url sample_type crcid)]
    /\ forall v,
         fst (extract_crc_data crcid sample_type log) = ok v ->
         v = PNone
         \/ exists d, v = PDict d
                      /\ d <> []
                      /\ forall k, In k (dict_keys d) -> In k scraped_keys.
Proof.
  intros crcid sample_type log.
  unfold extract_crc_data, io_bind, get, lift.
  destruct (report_site (report_url sample_type crcid)) as [e|soup];
    cbn [fst snd]; (split; [reflexivity|]); [discriminate|].
  intros v Hscrape. apply scrape_inv in Hscrape.
  destruct Hscrape as (tables_data & Htables & ->).
  destruct (with_links soup tables_data) as [|kv d] eqn:Hlinks; [now left|].
  right. exists (kv :: d). repeat split; [discriminate|].
  intros k Hin. rewrite <- Hlinks in Hin.
  apply with_links_keys_among in Hin. unfold scraped_keys.
  destruct Hin as [Hin|[->| ->]]; [|simpl; auto 6..].
  apply (scrape_tables_keys _ _ _ Htables) in Hin.
  destruct Hin as [[]|(table & _ & Hsection)].
  apply table_section_target in Hsection.
  destruct Hsection as [-> | ->]; simpl; auto.
Qed.

Lemma scrape_rows_rows (labels : list string) (target : string) (rows : list node) :
  forall ds ds' rows0,
    dict_get target ds = Some (PList rows0) ->
    scrape_rows labels target rows ds = ok ds' ->
    exists dicts,
      rmap (row_dict labels) rows = ok dicts
      /\ dict_get target ds' = Some (PList (rows0 ++ dicts))
      /\ forall k, k <> target -> dict_get k ds' = dict_get k ds.
Proof.
  induction rows as [|row rows IH]; intros ds ds' rows0 Hget; simpl.
  - intro H. apply ok_inj in H. subst ds'. exists [].
    rewrite app_nil_r. auto.
  - unfold row_dict at 1.
    destruct (row_cells _ _ _ _) as [e|d_this]; [discriminate|]. cbn [rbind ok].
    unfold append_row. rewrite Hget. cbn [rbind ok].
    intro H.
    destruct (IH _ _ (rows0 ++ [PDict d_this]) (dict_get_set_same _ _ _) H)
      as (dicts & Hdicts & Htarget & Hother).
    exists (PDict d_this :: dicts). rewrite Hdicts. cbn [rbind ok].
    split; [reflexivity|]. split.
    + now rewrite Htarget, <- app_assoc.
    + intros k Hk. rewrite (Hother k Hk). now apply dict_get_set_other.
Qed.

(** X12: when [scrape_table] gets through a table, the section named by the
    table's labels holds exactly one dictionary per row after the first, in
    the order of the rows, whatever that section held before; every other
    section is left as it was. *)
Theorem scrape_table_replaces_section :
  forall (table : node) (ds ds' : list (string * pyval)),
    scrape_table table ds = ok ds' ->
    exists labels target dicts,
      table_labels table = Some labels
      /\ table_section table = Some target
      /\ rmap (row_dict labels) (tl (find_all table "tr" any_tag)) = ok dicts
      /\ dict_get target ds' = Some (PList dicts)
      /\ forall k, k <> target -> dict_get k ds' = dict_get k ds.
Proof.
  intros table ds ds'. unfold scrape_table, table_section, table_labels.
  destruct (find table "tr") as [first_row|]; [|discriminate]. cbn [rbind ok].
  destruct (schema_named _ target_schemas) as [e|target]; [discriminate|].
  cbn [rbind]. intro H.
  destruct (scrape_rows_rows _ _ _ _ _ [] (dict_get_set_same target (PList []) ds) H)
    as (dicts & Hdicts & Htarget & Hother).
  exists (map text (find_all first_row "td" (has_class "label"))), target, dicts.
  repeat split; auto.
  intros k Hk. rewrite (Hother k Hk). now apply dict_get_set_other.
Qed.

Lemma row_cells_overflow (labels : list string) (cols : list node) :
  forall i d_this,
    (i <= List.length labels)%nat ->
    (List.length labels < i + List.length cols)%nat ->
    row_cells labels i cols d_this = raise IndexError.
Proof.
  induction cols as [|col cols IH]; intros i d_this Hi Hlen; simpl in *; [lia|].
  destruct (nth_error labels i) as [label|] eqn:Hnth; [|reflexivity].
  apply IH; [|lia].
  assert (i < List.length labels)%nat; [|lia].
  apply nth_error_Some. congruence.
Qed.

(** X13: a row with more cells than the first row has labels makes
    [row_cells] raise IndexError. *)
Theorem row_cells_wide_row :
  forall (labels : list string) (cols : list node),
    (List.length labels < List.length cols)%nat ->
    row_cells labels 0 cols [] = raise IndexError.
Proof.
  intros labels cols Hlen. apply row_cells_overflow; lia.
Qed.

Lemma dict_set_absent {A} (k : string) (v : A) (d : list (string * A)) :
  ~ In k (dict_keys d) -> dict_set k v d = d ++ [(k, v)].
Proof.
  unfold dict_keys. induction d as [|[k' v'] d IH]; simpl; [reflexivity|].
  intro Hnotin. destruct (String.eqb_spec k' k) as [->|Hne].
  - exfalso. apply Hnotin. now left.
  - rewrite IH; [reflexivity|]. intro Hin. apply Hnotin. now right.
Qed.

Lemma row_cells_combine (cols : list node) :
  forall (seen rest : list string) (d_this : list (string * pyval)),
    NoDup (seen ++ rest) ->
    (List.length cols <= List.length rest)%nat ->
    (forall k, In k (dict_keys d_this) -> In k seen) ->
    row_cells (seen ++ rest) (List.length seen) cols d_this
    = ok (d_this ++ combine (firstn (List.length cols) rest) (map cell_data cols)).
Proof.
  induction cols as [|col cols IH]; intros seen rest d_this Hnodup Hlen Hkeys.
  - simpl. now rewrite app_nil_r.
  - destruct rest as [|label rest]; [simpl in Hlen; lia|].
    cbn [row_cells].
    rewrite nth_error_app2, Nat.sub_diag by lia. cbn [nth_error].
    assert (Hfresh : ~ In label (dict_keys d_this)).
    { intro Hin. apply Hkeys in Hin.
      apply NoDup_remove_2 in Hnodup. apply Hnodup, in_or_app. now left. }
    rewrite (dict_set_absent _ _ _ Hfresh).
    replace (S (List.length seen)) with (List.length (seen ++ [label]))
      by (rewrite length_app; simpl; lia).
    replace (seen ++ label :: rest) with ((seen ++ [label]) ++ rest)
      by (now rewrite <- app_assoc).
    rewrite IH.
    + simpl. now rewrite <- app_assoc.
    + now rewrite <- app_assoc.
    + simpl in Hlen. lia.
    + intros k Hin. unfold dict_keys in Hin. rewrite map_app in Hin.
      apply in_app_or in Hin. apply in_or_app.
      destruct Hin as [Hin|[<-|[]]]; [left; now apply Hkeys | right; now left].
Qed.

(** X14: when the labels are distinct and the row has no more cells than
    there are labels, [row_cells] pairs the first labels with the data of the
    cells, in order; a short row gives a dictionary with fewer keys. *)
Theorem row_cells_pairs_labels :
  forall (labels : list string) (cols : list node),
    NoDup labels ->
    (List.length cols <= List.length labels)%nat ->
    row_cells labels 0 cols []
    = ok (combine (firstn (List.length cols) labels) (map cell_data cols)).
Proof.
  intros labels cols Hnodup Hlen.
  apply (row_cells_combine cols [] labels []); auto.
Qed.

(** ** Further properties: scraped links that lack a target *)

Lemma In_keys_dict_get {A} (k : string) (d : list (string * A)) :
  In k (dict_keys d) -> exists v, dict_get k d = Some v.
Proof.
  unfold dict_keys. induction d as [|[k' v'] d IH]; simpl; [contradiction|].
  destruct (String.eqb_spec k' k) as [->|Hne]; [now eexists|].
  intros [H|H]; [contradiction | auto].
Qed.

Lemma scrape_tables_no_links (soup : node) (tables_data : list (string * pyval))
  (k : string) :
  scrape_tables (report_tables soup) [] = ok tables_data ->
  k = "photos" \/ k = "documents" ->
  dict_get k tables_data = None.
Proof.
  intros Htables Hk.
  destruct (dict_get k tables_data) as [v|] eqn:E; [|reflexivity].
  exfalso. apply dict_get_In_keys in E.
  apply (scrape_tables_keys _ _ _ Htables) in E.
  destruct E as [[]|(table & _ & Hsection)].
  apply table_section_target in Hsection.
  destruct Hk as [-> | ->], Hsection as [E | E]; discriminate.
Qed.

Lemma page_links_hrefs (title : string) (soup : node) :
  flat_map (section_links title) (report_sections soup)
  = map py_of_attr (page_hrefs title soup).
Proof.
  unfold page_hrefs, section_links, titled_anchors.
  induction (report_sections soup) as [|section sections IH]; simpl; [reflexivity|].
  now rewrite map_app, IH.
Qed.

Lemma with_links_scraped (soup : node) (tables_data : list (string * pyval)) :
  dict_get "photos" tables_data = None ->
  dict_get "documents" tables_data = None ->
  scraped_links "documents" (with_links soup tables_data)
    (page_hrefs "download analysis document" soup)
  /\ scraped_links "photos" (with_links soup tables_data)
       (page_hrefs "see photo" soup).
Proof.
  intros Hphotos Hdocs. unfold with_links, scraped_links.
  rewrite !page_links_hrefs.
  destruct (page_hrefs "see photo" soup) as [|p ps];
    destruct (page_hrefs "download analysis document" soup) as [|d ds];
    cbn [map List.length Nat.ltb Nat.leb].
  - split; left; auto.
  - split; [right; apply dict_get_set_same|].
    left. split; [|reflexivity].
    now rewrite dict_get_set_other by discriminate.
  - split; [|right; apply dict_get_set_same].
    left. split; [|reflexivity].
    now rewrite dict_get_set_other by discriminate.
  - split; [right; apply dict_get_set_same|].
    right. rewrite dict_get_set_other by discriminate. apply dict_get_set_same.
Qed.

Lemma page_hrefs_None (title : string) (soup : node) (anchor : node) :
  In anchor (page_anchors title soup) ->
  get_attr "href" anchor = None ->
  In None (page_hrefs title soup).
Proof using set_order_In.
  unfold page_anchors, page_hrefs. intros Hin Hnone.
  apply in_flat_map in Hin. destruct Hin as (section & Hsection & Hanchor).
  apply in_flat_map. exists section. split; [exact Hsection|].
  apply set_order_In. rewrite <- Hnone. now apply in_map.
Qed.

(** X15: when a photo or document anchor inside a div of class report2 has
    no [href], the data scraped from the page hold None among their links,
    and [crc_weblinks] raises AttributeError on them. *)
Theorem crc_weblinks_scraped_anchor_without_href :
  forall (sample_type : string) (identifier extracted_data : pyval)
         (soup anchor : node),
    scrape soup = ok extracted_data ->
    In anchor (page_anchors "see photo" soup)
    \/ In anchor (page_anchors "download analysis document" soup) ->
    get_attr "href" anchor = None ->
    crc_weblinks sample_type identifier extracted_data = raise AttributeError.
Proof using set_order_In.
  intros sample_type identifier extracted_data soup anchor Hscrape Hanchor Hnone.
  apply scrape_inv in Hscrape. destruct Hscrape as (tables_data & Htables & ->).
  destruct (with_links_scraped soup tables_data
              (scrape_tables_no_links _ _ _ Htables (or_introl eq_refl))
              (scrape_tables_no_links _ _ _ Htables (or_intror eq_refl)))
    as [Hdocs Hphotos].
  assert (Hin : In None (page_hrefs "download analysis document" soup)
                \/ In None (page_hrefs "see photo" soup)).
  { destruct Hanchor as [H|H]; [right | left]; eapply page_hrefs_None; eauto. }
  destruct (with_links soup tables_data) as [|kv d] eqn:Hlinks.
  - exfalso. destruct Hin as [Hin|Hin].
    + destruct Hdocs as [[_ E]|E]; [rewrite E in Hin; contradiction | discriminate].
    + destruct Hphotos as [[_ E]|E]; [rewrite E in Hin; contradiction | discriminate].
  - cbn [dict_or_none].
    exact (crc_weblinks_None_link _ _ _ _ _ Hdocs Hphotos Hin).
Qed.

(** ** Further properties: the item *)

Lemma crc_identifiers_head (identifier : pyval) (sample_type : string)
  (crc_record identifiers : pyval) :
  crc_identifiers identifier sample_type crc_record = ok identifiers ->
  exists rest,
    identifiers = PList (unique_key "CRC Well Catalog Database ID" identifier :: rest).
Proof.
  unfold crc_identifiers.
  destruct (record_field sample_type "source_identifier" crc_record) as [e|libno];
    [discriminate|].
  cbn [rbind].
  destruct (record_field sample_type "api_identifier" crc_record) as [e|api];
    [discriminate|].
  cbn [rbind]. intro H. apply ok_inj in H. subst identifiers.
  destruct (negb (is_none libno)), (negb (is_none api)); now eexists.
Qed.

Lemma mapped_parent_id (sample_type parent_id : string) :
  mapped sample_type "parent_id" = ok parent_id ->
  (sample_type = "core" /\ parent_id = "4f4e49dae4b07f02db5e0486")
  \/ (sample_type = "cutting" /\ parent_id = "4f4e49d8e4b07f02db5df2d2").
Proof.
  unfold mapped, property_mapping. cbn [dict_get].
  destruct (String.eqb_spec "core" sample_type) as [<-|_].
  - intro H. apply ok_inj in H. now left.
  - destruct (String.eqb_spec "cutting" sample_type) as [<-|_]; [|discriminate].
    intro H. apply ok_inj in H. now right.
Qed.

(** What a returned item is made of. *)
Lemma sb_item_inv (sample_type : string)
  (crc_record extracted_data additional_props macrostrat_info item : pyval) :
  sb_item sample_type crc_record extracted_data additional_props macrostrat_info
  = ok item ->
  exists parent_id crcid identifiers geometry fixed optional,
    mapped sample_type "parent_id" = ok parent_id
    /\ getitem crc_record "id" = ok crcid
    /\ dict_get "parentId" fixed = Some (PStr parent_id)
    /\ dict_get "identifiers" fixed
       = Some (PList (unique_key "CRC Well Catalog Database ID" crcid :: identifiers))
    /\ dict_keys fixed = fixed_item_keys
    /\ getitem crc_record "geometry" = ok geometry
    /\ dict_keys optional
       = (if is_none geometry then [] else ["spatial"])
           ++ (if is_none macrostrat_info then []
               else match crc_tags macrostrat_info with
                    | inr PNone | inl _ => []
                    | inr _ => ["tags"]
                    end)
    /\ item = PDict (fixed ++ optional).
Proof.
  unfold sb_item.
  destruct (mapped sample_type "parent_id") as [e|parent_id] eqn:Hparent;
    [discriminate|]. cbn [rbind].
  destruct (getitem crc_record "id") as [e|crcid]; [discriminate|]. cbn [rbind].
  destruct (getitem crc_record "properties") as [e|properties]; [discriminate|].
  cbn [rbind].
  destruct (crc_identifiers crcid sample_type properties) as [e|identifiers] eqn:Hids;
    [discriminate|]. cbn [rbind].
  destruct (record_field sample_type "source_identifier" properties) as [e|libno];
    [discriminate|]. cbn [rbind].
  destruct (crc_body _ _ _ _) as [e|body]; [discriminate|]. cbn [rbind].
  destruct (record_field sample_type "site_operator" properties) as [e|oper];
    [discriminate|]. cbn [rbind].
  destruct (crc_weblinks _ _ _) as [e|web_links]; [discriminate|]. cbn [rbind].
  destruct (getitem crc_record "geometry") as [e|geometry]; [discriminate|].
  cbn [rbind].
  destruct (crc_identifiers_head _ _ _ _ Hids) as (rest & ->).
  intro H.
  exists parent_id, crcid, rest, geometry.
  match type of H with
  | context [dict_set "spatial" _ ?fixed] => exists fixed
  end.
  destruct (is_none geometry); cbn [negb rbind ok] in H.
  - destruct (is_none macrostrat_info); cbn [negb rbind ok] in H.
    + apply ok_inj in H. subst item. exists []. repeat split; reflexivity.
    + destruct (crc_tags macrostrat_info) as [e|item_tags]; [discriminate|].
      cbn [rbind] in H.
      destruct item_tags; cbn [is_none negb] in H; apply ok_inj in H; subst item;
        (eexists; repeat split; reflexivity).
  - destruct (crc_location crc_record) as [e|spatial]; [discriminate|].
    cbn [rbind ok] in H.
    destruct (is_none macrostrat_info); cbn [negb rbind ok] in H.
    + apply ok_inj in H. subst item. eexists. repeat split; reflexivity.
    + destruct (crc_tags macrostrat_info) as [e|item_tags]; [discriminate|].
      cbn [rbind] in H.
      destruct item_tags; cbn [is_none negb] in H; apply ok_inj in H; subst item;
        (eexists; repeat split; reflexivity).
Qed.

(** X16: an item [sb_item] returns has the eight fixed members in the order
    of the literal, then "spatial" exactly when the geometry of the record is
    not None, then "tags" exactly when a geologic context is given and
    [crc_tags] finds a tag in it. *)
Theorem sb_item_members :
  forall (sample_type : string)
         (crc_record extracted_data additional_props macrostrat_info item : pyval),
    sb_item sample_type crc_record extracted_data additional_props macrostrat_info
    = ok item ->
    exists d geometry,
      item = PDict d
      /\ getitem crc_record "geometry" = ok geometry
      /\ dict_keys d = item_keys geometry macrostrat_info.
Proof.
  intros sample_type crc_record extracted_data additional_props macrostrat_info
         item H.
  destruct (sb_item_inv _ _ _ _ _ _ H)
    as (parent_id & crcid & identifiers & geometry & fixed & optional
        & _ & _ & _ & _ & Hfixed & Hgeometry & Hoptional & ->).
  exists (fixed ++ optional), geometry. repeat split; [exact Hgeometry|].
  unfold item_keys, dict_keys in *. now rewrite map_app, Hfixed, Hoptional.
Qed.

Lemma dict_get_app_l {A} (k : string) (v : A) (d d' : list (string * A)) :
  dict_get k d = Some v -> dict_get k (d ++ d') = Some v.
Proof.
  induction d as [|[k' v'] d IH]; simpl; [discriminate|].
  destruct (String.eqb k' k); auto.
Qed.

(** X17: [sb_item] returns an item only for the sample types "core" and
    "cutting", and the item's parent is the collection of that sample
    type. *)
Theorem sb_item_parent :
  forall (sample_type : string)
         (crc_record extracted_data additional_props macrostrat_info item : pyval),
    sb_item sample_type crc_record extracted_data additional_props macrostrat_info
    = ok item ->
    (sample_type = "core"
     /\ getitem item "parentId" = ok (PStr "4f4e49dae4b07f02db5e0486"))
    \/ (sample_type = "cutting"
        /\ getitem item "parentId" = ok (PStr "4f4e49d8e4b07f02db5df2d2")).
Proof.
  intros sample_type crc_record extracted_data additional_props macrostrat_info
         item H.
  destruct (sb_item_inv _ _ _ _ _ _ H)
    as (parent_id & crcid & identifiers & geometry & fixed & optional
        & Hmapped & _ & Hparent & _ & _ & _ & _ & ->).
  unfold getitem. rewrite (dict_get_app_l _ _ _ optional Hparent).
  destruct (mapped_parent_id _ _ Hmapped) as [[-> ->]|[-> ->]]; [left | right];
    split; reflexivity.
Qed.

(** X18: the first identifier of an item [sb_item] returns is the one
    [make_identifier] builds from the record. *)
Theorem sb_item_first_identifier :
  forall (sample_type : string)
         (crc_record extracted_data additional_props macrostrat_info item : pyval),
    sb_item sample_type crc_record extracted_data additional_props macrostrat_info
    = ok item ->
    exists first rest,
      make_identifier crc_record = ok first
      /\ getitem item "identifiers" = ok (PList (first :: rest)).
Proof.
  intros sample_type crc_record extracted_data additional_props macrostrat_info
         item H.
  destruct (sb_item_inv _ _ _ _ _ _ H)
    as (parent_id & crcid & identifiers & geometry & fixed & optional
        & _ & Hid & _ & Hids & _ & _ & _ & ->).
  exists (unique_key "CRC Well Catalog Database ID" crcid), identifiers.
  unfold make_identifier, getitem in *.
  rewrite (dict_get_app_l _ _ _ optional Hids).
  destruct crc_record; try discriminate.
  destruct (dict_get "id" d); [|discriminate].
  apply ok_inj in Hid. subst. split; reflexivity.
Qed.

(** ** Further properties: the mapper *)

Lemma with_links_get_other (soup : node) (tables_data : list (string * pyval))
  (k : string) :
  k <> "photos" -> k <> "documents" ->
  dict_get k (with_links soup tables_data) = dict_get k tables_data.
Proof.
  intros Hphotos Hdocs. unfold with_links.
  destruct (0 <? List.length (flat_map (section_links "see photo") _))%nat;
    destruct (0 <? List.length
                     (flat_map (section_links "download analysis document") _))%nat;
    rewrite ?dict_get_set_other by congruence; reflexivity.
Qed.

Lemma page_properties_found (d : list (string * pyval)) (additional_props v : pyval) :
  dict_get "depth_age_formation" d = Some v ->
  page_properties (dict_or_none d) additional_props = ok v.
Proof.
  intro Hget. destruct d as [|kv d]; [discriminate|].
  unfold page_properties. cbn [dict_or_none is_none negb].
  rewrite in_keys_dict_has. unfold dict_has, getitem. now rewrite Hget.
Qed.

(** X19: when the report page has a table of the depth, age and formation
    template, the additional properties the caller passes to
    [sb_item_from_crcwc] have no effect on what it returns. *)
Theorem sb_item_from_crcwc_page_overrides :
  forall (sample_type : string) (crc_record macrostrat_info crcid : pyval)
         (soup table : node) (log : list request)
         (additional_props additional_props' : pyval),
    getitem crc_record "id" = ok crcid ->
    report_site (report_url sample_type crcid) = ok soup ->
    In table (report_tables soup) ->
    table_section table = Some "depth_age_formation" ->
    sb_item_from_crcwc sample_type crc_record additional_props macrostrat_info log
    = sb_item_from_crcwc sample_type crc_record additional_props' macrostrat_info log.
Proof.
  intros sample_type crc_record macrostrat_info crcid soup table log
         additional_props additional_props' Hid Hpage Hin Hsection.
  unfold sb_item_from_crcwc, io_bind, lift.
  unfold ok in Hid. rewrite Hid. cbv beta iota.
  rewrite (extract_crc_data_scrape _ _ _ _ Hpage).
  destruct (scrape soup) as [e|extracted_data] eqn:Hscrape; [reflexivity|].
  apply scrape_inv in Hscrape. destruct Hscrape as (tables_data & Htables & ->).
  assert (Hkey : In "depth_age_formation" (dict_keys tables_data)).
  { apply (scrape_tables_keys _ _ _ Htables). right. now exists table. }
  apply In_keys_dict_get in Hkey. destruct Hkey as (v & Hget).
  rewrite <- (with_links_get_other soup) in Hget by discriminate.
  now rewrite !(page_properties_found _ _ _ Hget).
Qed.

Lemma extract_crc_data_log (crcid : pyval) (sample_type : string) (log : list request) :
  snd (extract_crc_data crcid sample_type log)
  = log ++ [(ReportSite, report_url sample_type crcid)].
Proof.
  unfold extract_crc_data, io_bind, get, lift.
  destruct (report_site _); reflexivity.
Qed.

(** X20: a record without an id makes [sb_item_from_crcwc] raise before any
    request is sent; for a record with an id it sends the request for the
    report page first and after it at most one request, to Macrostrat, and
    none to the map service. *)
Theorem sb_item_from_crcwc_requests :
  forall (sample_type : string)
         (crc_record additional_props macrostrat_info : pyval) (log : list request),
    (forall e, getitem crc_record "id" = inl e ->
               sb_item_from_crcwc sample_type crc_record additional_props
                 macrostrat_info log
               = (inl e, log))
    /\ (forall crcid,
          getitem crc_record "id" = ok crcid ->
          exists rest,
            snd (sb_item_from_crcwc sample_type crc_record additional_props
                   macrostrat_info log)
            = log ++ (ReportSite, report_url sample_type crcid) :: rest
            /\ (rest = []
                \/ exists lat lng, rest = [(Macrostrat, macrostrat_url lat lng)])).
Proof.
  intros sample_type crc_record additional_props macrostrat_info log.
  unfold sb_item_from_crcwc, io_bind, lift. split.
  - intros e ->. reflexivity.
  - intros crcid Hid. unfold ok in Hid. rewrite Hid. cbv beta iota.
    pose proof (extract_crc_data_log crcid sample_type log) as Hlog.
    destruct (extract_crc_data crcid sample_type log) as [[e|extracted_data] log1];
      cbn [snd] in Hlog; subst log1.
    { exists []. split; [reflexivity | now left]. }
    destruct (page_properties extracted_data additional_props) as [e|page_props].
    { exists []. split; [reflexivity | now left]. }
    destruct (has_float_coordinates crc_record) as [e|[|]].
    + exists []. split; [reflexivity | now left].
    + destruct (rbind (getitem crc_record "properties") _) as [e|lat].
      { exists []. split; [reflexivity | now left]. }
      destruct (rbind (getitem crc_record "properties") _) as [e|lng].
      { exists []. split; [reflexivity | now left]. }
      pose proof (macrostrat_context_log lat lng
                    (log ++ [(ReportSite, report_url sample_type crcid)])) as Hm.
      destruct (macrostrat_context lat lng _) as [[e|info] log2];
        cbn [snd] in Hm |- *; subst log2;
        exists [(Macrostrat, macrostrat_url lat lng)];
        (split; [now rewrite <- app_assoc | right; now exists lat, lng]).
    + exists []. split; [reflexivity | now left].
Qed.

(** X21: the longitude is read only when the latitude is a float: for a
    record whose latitude is not a float [sb_item_from_crcwc] goes on to
    build the item without a request to Macrostrat even when the record has
    no longitude, and for a record whose latitude is a float and that has no
    longitude it raises the error of the lookup, after the report request
    alone. *)
Theorem sb_item_from_crcwc_latitude_first :
  forall (sample_type : string)
         (crc_record additional_props macrostrat_info : pyval)
         (crcid properties lat extracted_data : pyval) (log log1 : list request),
    getitem crc_record "id" = ok crcid ->
    extract_crc_data crcid sample_type log = (ok extracted_data, log1) ->
    getitem crc_record "properties" = ok properties ->
    getitem properties "lat" = ok lat ->
    (is_float lat = false ->
     sb_item_from_crcwc sample_type crc_record additional_props macrostrat_info log
     = ((page_props <- page_properties extracted_data additional_props ;;
         sb_item sample_type crc_record extracted_data page_props
           macrostrat_info)%res,
        log1))
    /\ (is_float lat = true ->
        forall e, getitem properties "lng" = inl e ->
                  sb_item_from_crcwc sample_type crc_record additional_props
                    macrostrat_info log
                  = (inl e, log1)).
Proof.
  intros sample_type crc_record additional_props macrostrat_info
         crcid properties lat extracted_data log log1 Hid Hextract Hprops Hlat.
  destruct (extract_crc_data_result _ _ _ _ _ Hextract) as (d & Hshape).
  destruct (page_properties_total d additional_props) as (page_props & Hpage).
  rewrite <- Hshape in Hpage.
  unfold ok in Hid, Hpage, Hextract, Hprops, Hlat.
  unfold sb_item_from_crcwc, io_bind, lift, has_float_coordinates.
  rewrite Hid. cbv beta iota.
  rewrite Hextract. cbv beta iota.
  rewrite Hpage. cbv beta iota.
  rewrite Hprops. cbn [rbind]. rewrite Hlat. cbn [rbind].
  split.
  - intros ->. unfold io_ret, ok. cbn [rbind]. reflexivity.
  - intros -> e Hlng. rewrite Hlng. reflexivity.
Qed.

(** X22: the links [scrape] lists under "photos" (and under "documents") are
    exactly the link targets of the photo (document) anchors inside the divs
    of class report2: none is lost and none is made up. *)
Theorem scrape_lists_anchor_targets :
  forall (soup : node) (extracted_data : pyval) (key title : string) (link : pyval),
    scrape soup = ok extracted_data ->
    (key = "photos" /\ title = "see photo")
    \/ (key = "documents" /\ title = "download analysis document") ->
    (exists links, getitem extracted_data key = ok (PList links) /\ In link links)
    <-> exists anchor,
          In anchor (page_anchors title soup)
          /\ link = py_of_attr (get_attr "href" anchor).
Proof using set_order_In.
  intros soup extracted_data key title link Hscrape Hkey.
  apply scrape_inv in Hscrape. destruct Hscrape as (tables_data & Htables & ->).
  destruct (with_links_scraped soup tables_data
              (scrape_tables_no_links _ _ _ Htables (or_introl eq_refl))
              (scrape_tables_no_links _ _ _ Htables (or_intror eq_refl)))
    as [Hdocs Hphotos].
  assert (Hlinks : scraped_links key (with_links soup tables_data)
                     (page_hrefs title soup)).
  { destruct Hkey as [[-> ->]|[-> ->]]; assumption. }
  clear Hdocs Hphotos Hkey.
  assert (Hmem : In link (map py_of_attr (page_hrefs title soup)) <->
                 exists anchor, In anchor (page_anchors title soup)
                                /\ link = py_of_attr (get_attr "href" anchor)).
  { rewrite <- page_links_hrefs. unfold page_anchors. rewrite in_flat_map. split.
    - intros (section & Hsection & Hin). apply section_links_In in Hin.
      destruct Hin as (anchor & Hanchor & ->). exists anchor. split; [|reflexivity].
      apply in_flat_map. now exists section.
    - intros (anchor & Hin & ->). apply in_flat_map in Hin.
      destruct Hin as (section & Hsection & Hanchor). exists section.
      split; [exact Hsection|]. apply section_links_In. now exists anchor. }
  rewrite <- Hmem. clear Hmem. split.
  - intros (links & Hget & Hin).
    destruct (with_links soup tables_data) as [|kv d]; [discriminate|].
    cbn [dict_or_none getitem] in Hget.
    destruct Hlinks as [[Hnone _]|Hsome].
    + rewrite Hnone in Hget. discriminate.
    + rewrite Hsome in Hget. apply ok_inj in Hget. injection Hget as <-. exact Hin.
  - intro Hin. exists (map py_of_attr (page_hrefs title soup)). split; [|exact Hin].
    destruct Hlinks as [[_ Hnil]|Hsome]; [rewrite Hnil in Hin; contradiction|].
    destruct (with_links soup tables_data) as [|kv d]; [discriminate|].
    cbn [dict_or_none getitem]. now rewrite Hsome.
Qed.

End Script.

(** ** The sample data run through the theorems *)

Lemma distinct_NoDup (l : list (option string)) : NoDup (distinct l).
Proof.
  apply NoDup_nodup.
Qed.

Lemma distinct_In (l : list (option string)) (x : option string) :
  In x (distinct l) <-> In x l.
Proof.
  apply nodup_In.
Qed.

Lemma crc_identifiers_null_or_full_sample :
  crc_identifiers (PInt 7) "core" (core_properties PNone PNone PNone PNone) =
    ok (PList [ PDict [ ("type", PStr "uniqueKey");
                      ("scheme", PStr "CRC Well Catalog Database ID");
                      ("key", PInt 7) ] ])
  /\ crc_identifiers (PInt 7) "cutting"
       (PDict [("chlibno", PStr "C9"); ("apinum", PStr "0500112345")]) =
       ok (PList [ PDict [ ("type", PStr "uniqueKey");
                      ("scheme", PStr "CRC Well Catalog Database ID");
                      ("key", PInt 7) ];
                   PDict [ ("type", PStr "uniqueKey");
                           ("scheme", PStr "CRC Library Number");
                           ("key", PStr "C9") ];
                   PDict [ ("type", PStr "uniqueKey");
                           ("scheme", PStr "American Petroleum Institute Number");
                           ("key", PStr "0500112345") ] ]).
Proof.
  split.
  - apply (crc_identifiers_null_or_full (PInt 7) "core"
             (core_properties PNone PNone PNone PNone) PNone PNone);
      [simpl; auto | reflexivity | reflexivity | split; reflexivity].
  - apply (crc_identifiers_null_or_full (PInt 7) "cutting"
             (PDict [("chlibno", PStr "C9"); ("apinum", PStr "0500112345")])
             (PStr "C9") (PStr "0500112345"));
      [simpl; auto | reflexivity | reflexivity | split; discriminate].
Defined.


Lemma crc_weblinks_one_document_one_photo_sample :
  crc_weblinks sample_float_str "core" (PInt 7) (PDict sample_scraped)
  = ok (PList [ PDict [ ("type", PStr "webLink");
                      ("typeLabel", PStr "Web Link");
                      ("uri", PStr "https://my.usgs.gov/crcwc/core/report/7");
                      ("rel", PStr "related");
                      ("title", PStr "Core Research Center Well Catalog Web Page");
                      ("hidden", PBool false);
                      ("itemWebLinkTypeId", PStr "4f4e475de4b07f02db47debf") ];
                PDict [ ("type", PStr "download");
                      ("typeLabel", PStr "Download");
                      ("uri", PStr "/docs/D123/report.pdf");
                      ("rel", PStr "related");
                      ("title", PStr "Core Research Center Analysis File report.pdf");
                      ("hidden", PBool false);
                      ("itemWebLinkTypeId", PStr "4f4e475de4b07f02db47dec0") ];
                PDict [ ("type", PStr "download");
                      ("typeLabel", PStr "Photo");
                      ("uri", PStr "/photos/1.jpg");
                      ("rel", PStr "related");
                      ("title", PStr "Core Research Center Photo 1.jpg");
                      ("hidden", PBool false);
                      ("itemWebLinkTypeId", PStr "4f4e475de4b07f02db47dec0") ] ]).
Proof.
  destruct (crc_weblinks_one_document_one_photo sample_float_str "core" (PInt 7)
              sample_scraped "/docs/D123/report.pdf" "/photos/1.jpg"
              eq_refl eq_refl)
    as (doc_file & photo_file & _ & _ & Hlinks).
  pose proof Hlinks as Htitles. vm_compute in Htitles.
  injection Htitles as Hdoc Hphoto. subst doc_file photo_file.
  exact Hlinks.
Defined.

Lemma crc_body_contains_properties_sample :
  exists body,
    crc_body sample_float_str sample_float_str "core"
      (core_properties (PStr "D123") PNone PNone PNone) PNone PNone = ok body
    /\ Contains
         (json_dumps sample_float_str (core_properties (PStr "D123") PNone PNone PNone))
         body.
Proof.
  eexists. split; [reflexivity|].
  apply (crc_body_contains_properties sample_float_str sample_float_str "core"
           (core_properties (PStr "D123") PNone PNone PNone) PNone PNone).
  reflexivity.
Defined.

Lemma crcwc_items_layer_sample :
  crcwc_items sample_float_str (site_of PNone) "rock" (PInt 1000) (PInt 0) []
  = (raise UnboundLocalError, [])
  /\ (exists query,
        snd (crcwc_items sample_float_str (site_of PNone) "core" (PInt 1000) (PInt 0) [])
        = [(FeatureService,
            "https://my.usgs.gov/arcgis/rest/services/crcwc/crcwc/MapServer/0/query?"
              +++ query)])
  /\ (exists query,
        snd (crcwc_items sample_float_str (site_of PNone) "cutting" (PInt 1000) (PInt 0) [])
        = [(FeatureService,
            "https://my.usgs.gov/arcgis/rest/services/crcwc/crcwc/MapServer/1/query?"
              +++ query)]).
Proof.
  split; [|split].
  - apply (crcwc_items_layer sample_float_str (site_of PNone) "rock"); discriminate.
  - destruct (crcwc_items_layer sample_float_str (site_of PNone) "core"
                (PInt 1000) (PInt 0) []) as (_ & Hcore & _).
    destruct (Hcore eq_refl) as (query & Hrun).
    exists query. now rewrite Hrun.
  - destruct (crcwc_items_layer sample_float_str (site_of PNone) "cutting"
                (PInt 1000) (PInt 0) []) as (_ & _ & Hcutting).
    destruct (Hcutting eq_refl) as (query & Hrun).
    exists query. now rewrite Hrun.
Defined.

Lemma crc_tags_per_rock_type_sample :
  crc_tags sample_context
  = ok (PList [ theme_tag "Rock Type" (PStr "sandstone");
                theme_tag "Rock Type" (PStr "shale");
                theme_tag "Geologic Age" (PStr "Cretaceous") ])
  /\ crc_tags (PDict [("rocktype", PList [PNone]); ("age", PStr ""); ("name", PStr "")])
     = ok PNone.
Proof.
  split.
  - apply (crc_tags_per_rock_type sample_context
             (PList [PStr "sandstone"; PStr "shale"]) ["sandstone"; "shale"]
             "Cretaceous" "");
      [reflexivity | reflexivity | reflexivity |].
    right. split; [discriminate | reflexivity].
  - apply (crc_tags_per_rock_type
             (PDict [("rocktype", PList [PNone]); ("age", PStr ""); ("name", PStr "")])
             (PList [PNone]) [] "" "");
      [reflexivity | reflexivity | reflexivity | | reflexivity | reflexivity | reflexivity].
    left. exists []. split; reflexivity.
Defined.

Lemma macrostrat_context_success_data_sample :
  macrostrat_context sample_float_str (site_of success_response)
    (PFloat float_40) (PFloat float_minus_105) []
  = (ok sample_context,
     [(Macrostrat, "https://macrostrat.org/api/mobile/point?lat=40.0&lng=-105.0")]).
Proof.
  apply (macrostrat_context_success_data sample_float_str (site_of success_response)
           (PFloat float_40) (PFloat float_minus_105) success_response []);
    reflexivity.
Defined.

Lemma extract_crc_data_populated_sample :
  forallb readable_table (report_tables sample_page) = true
  /\ exists data_structures,
       extract_crc_data sample_float_str (site_of sample_page) distinct
         (PInt 7) "core" []
       = (ok (dict_or_none data_structures),
          [] ++ [(ReportSite, report_url sample_float_str "core" (PInt 7))])
       /\ (data_structures = [] <->
           report_tables sample_page = []
           /\ page_anchors "see photo" sample_page = []
           /\ page_anchors "download analysis document" sample_page = [])
       /\ (forall k,
             In k (dict_keys data_structures) <->
             (exists table,
                 In table (report_tables sample_page) /\ table_section table = Some k)
             \/ (k = "photos" /\ page_anchors "see photo" sample_page <> [])
             \/ (k = "documents"
                 /\ page_anchors "download analysis document" sample_page <> [])).
Proof.
  split; [reflexivity|].
  apply (extract_crc_data_populated sample_float_str (site_of sample_page) distinct
           distinct_In (PInt 7) "core" sample_page []); reflexivity.
Defined.

Lemma extract_crc_data_links_distinct_per_section_sample :
  [PStr "/photos/1.jpg"; PStr "/photos/1.jpg"]
  = flat_map (section_links distinct "see photo") (report_sections two_section_page)
  /\ forall section,
       In section (report_sections two_section_page) ->
       NoDup (section_links distinct "see photo" section).
Proof.
  destruct (extract_crc_data_links_distinct_per_section sample_float_str
              (site_of two_section_page) distinct distinct_NoDup distinct_In
              (PInt 7) "core" two_section_page []
              [(ReportSite, "https://my.usgs.gov/crcwc/core/report/7")]
              [("photos", PList [PStr "/photos/1.jpg"; PStr "/photos/1.jpg"])]
              "photos" "see photo" [PStr "/photos/1.jpg"; PStr "/photos/1.jpg"]
              eq_refl eq_refl (or_introl (conj eq_refl eq_refl)) eq_refl)
    as [Hlinks Hsections].
  split; [exact Hlinks|].
  intros section Hin. now apply Hsections.
Defined.

Lemma sb_item_from_crcwc_enriches_floats_sample :
  snd (sb_item_from_crcwc sample_float_str sample_float_str
         (site_of empty_page) (site_of success_response) distinct
         "core" (core_record (PFloat float_40) (PFloat float_minus_105)) PNone PNone [])
  = [ (ReportSite, "https://my.usgs.gov/crcwc/core/report/7");
      (Macrostrat, "https://macrostrat.org/api/mobile/point?lat=40.0&lng=-105.0") ]
  /\ snd (sb_item_from_crcwc sample_float_str sample_float_str
            (site_of empty_page) (site_of success_response) distinct
            "core" (core_record (PFloat float_40) PNone) PNone PNone [])
     = [ (ReportSite, "https://my.usgs.gov/crcwc/core/report/7") ].
Proof.
  split.
  - apply (sb_item_from_crcwc_enriches_floats sample_float_str sample_float_str
             (site_of empty_page) (site_of success_response) distinct
             "core" (core_record (PFloat float_40) (PFloat float_minus_105))
             PNone PNone (PInt 7) PNone []
             [(ReportSite, "https://my.usgs.gov/crcwc/core/report/7")]
             eq_refl eq_refl).
  - destruct (sb_item_from_crcwc_enriches_floats sample_float_str sample_float_str
                (site_of empty_page) (site_of success_response) distinct
                "core" (core_record (PFloat float_40) PNone)
                PNone PNone (PInt 7) PNone []
                [(ReportSite, "https://my.usgs.gov/crcwc/core/report/7")]
                eq_refl eq_refl) as [_ Hskip].
    rewrite (Hskip (core_properties (PStr "D123") (PStr "0500112345")
                      (PFloat float_40) PNone)
               (PFloat float_40) PNone eq_refl eq_refl eq_refl eq_refl).
    reflexivity.
Defined.

(** ** Where the code departs from the specification *)

(** C2: with the document link /docs/D123/report.pdf and the photo link
    /photos/1.jpg, whose trailing path segments are report.pdf and 1.jpg, the
    document entry is titled "Core Research Center Analysis File report.pdf",
    not "report.pdf", and the photo entry "Core Research Center Photo 1.jpg",
    not "Photo 1.jpg". *)
Lemma crc_weblinks_titles_have_prefix :
  trailing_segment (PStr "/docs/D123/report.pdf") = ok "report.pdf"
  /\ trailing_segment (PStr "/photos/1.jpg") = ok "1.jpg"
  /\ crc_weblinks sample_float_str "core" (PInt 7) (PDict sample_scraped)
     = ok (PList [ PDict [ ("type", PStr "webLink");
                      ("typeLabel", PStr "Web Link");
                      ("uri", PStr "https://my.usgs.gov/crcwc/core/report/7");
                      ("rel", PStr "related");
                      ("title", PStr "Core Research Center Well Catalog Web Page");
                      ("hidden", PBool false);
                      ("itemWebLinkTypeId", PStr "4f4e475de4b07f02db47debf") ];
                   PDict [ ("type", PStr "download");
                      ("typeLabel", PStr "Download");
                      ("uri", PStr "/docs/D123/report.pdf");
                      ("rel", PStr "related");
                      ("title", PStr "Core Research Center Analysis File report.pdf");
                      ("hidden", PBool false);
                      ("itemWebLinkTypeId", PStr "4f4e475de4b07f02db47dec0") ];
                   PDict [ ("type", PStr "download");
                      ("typeLabel", PStr "Photo");
                      ("uri", PStr "/photos/1.jpg");
                      ("rel", PStr "related");
                      ("title", PStr "Core Research Center Photo 1.jpg");
                      ("hidden", PBool false);
                      ("itemWebLinkTypeId", PStr "4f4e475de4b07f02db47dec0") ] ])
  /\ "Core Research Center Analysis File report.pdf" <> "report.pdf"
  /\ "Core Research Center Photo 1.jpg" <> "Photo 1.jpg".
Proof.
  repeat split; try reflexivity; discriminate.
Qed.

(** C3: a geologic context with two rock types, an empty age and an empty
    formation name has one populated category, and [crc_tags] returns two
    tags for it. *)
Lemma crc_tags_two_rock_types :
  crc_tags two_rock_types
  = ok (PList [ theme_tag "Rock Type" (PStr "sandstone");
                theme_tag "Rock Type" (PStr "shale") ])
  /\ populated_categories (PList [PStr "sandstone"; PStr "shale"]) "" "" = 1%nat.
Proof.
  split; reflexivity.
Qed.

(** C5: a response whose success member is the flag [true], and a response
    that is a list, have no data member under a success member, and
    [macrostrat_context] raises on them instead of returning None. *)
Lemma macrostrat_context_unreadable_response :
  success_data (PDict [("success", PBool true)]) = None
  /\ fst (macrostrat_context sample_float_str
            (site_of (PDict [("success", PBool true)]))
            (PFloat float_40) (PFloat float_minus_105) [])
     = raise AttributeError
  /\ success_data (PList []) = None
  /\ fst (macrostrat_context sample_float_str (site_of (PList []))
            (PFloat float_40) (PFloat float_minus_105) [])
     = raise AttributeError.
Proof.
  repeat split; reflexivity.
Qed.

(** C6: on a page whose only table of the report class has labels that match
    no template, and that has no anchor, [extract_crc_data] returns neither
    None nor a mapping: it raises; and on a page with a photo anchor outside
    every div of the report class it returns None. *)
Lemma extract_crc_data_unknown_table_stray_anchor :
  fst (extract_crc_data sample_float_str (site_of unknown_table_page) distinct
         (PInt 7) "core" [])
  = raise ValueError
  /\ find_all stray_photo_page "a" (has_attr "title" "see photo")
     = [anchor "see photo" "/photos/1.jpg"]
  /\ fst (extract_crc_data sample_float_str (site_of stray_photo_page) distinct
            (PInt 7) "core" [])
     = ok PNone.
Proof.
  repeat split; reflexivity.
Qed.

(** C7: a record whose lat and lng are the integers 40 and -105 has numeric
    coordinates, and the mapper sends its one request to the report site and
    none to Macrostrat; a record with float coordinates whose report page
    has a table the scraper cannot read stops at the scraper, and no request
    goes to Macrostrat either. *)
Lemma sb_item_from_crcwc_integer_coordinates :
  is_numeric (PInt 40) = true
  /\ is_numeric (PInt (-105)) = true
  /\ snd (sb_item_from_crcwc sample_float_str sample_float_str
            (site_of empty_page) (site_of success_response) distinct
            "core" (core_record (PInt 40) (PInt (-105))) PNone PNone [])
     = [ (ReportSite, "https://my.usgs.gov/crcwc/core/report/7") ]
  /\ sb_item_from_crcwc sample_float_str sample_float_str
       (site_of unknown_table_page) (site_of success_response) distinct
       "core" (core_record (PFloat float_40) (PFloat float_minus_105)) PNone PNone []
     = (raise ValueError, [ (ReportSite, "https://my.usgs.gov/crcwc/core/report/7") ]).
Proof.
  repeat split; reflexivity.
Qed.

(** C8: on a page with two divs of the report class that each link to the
    same photo, the photo list holds that link twice. *)
Lemma extract_crc_data_repeats_link_across_sections :
  fst (extract_crc_data sample_float_str (site_of two_section_page) distinct
         (PInt 7) "core" [])
  = ok (PDict [("photos", PList [PStr "/photos/1.jpg"; PStr "/photos/1.jpg"])])
  /\ ~ NoDup [PStr "/photos/1.jpg"; PStr "/photos/1.jpg"].
Proof.
  split; [reflexivity|].
  intro H. inversion H as [|x l Hnotin _]. apply Hnotin. now left.
Qed.

(** ** The sample data run through the further properties *)

Lemma crc_identifiers_shape_sample :
  crc_identifiers (PInt 7) "core" (core_properties PNone (PStr "0500112345") PNone PNone)
  = ok (PList [ PDict [ ("type", PStr "uniqueKey");
                      ("scheme", PStr "CRC Well Catalog Database ID");
                      ("key", PInt 7) ];
                PDict [ ("type", PStr "uniqueKey");
                        ("scheme", PStr "American Petroleum Institute Number");
                        ("key", PStr "0500112345") ] ])
  /\ crc_identifiers (PInt 7) "core"
       (core_properties (PStr "D123") PNone PNone PNone)
     = ok (PList [ PDict [ ("type", PStr "uniqueKey");
                      ("scheme", PStr "CRC Well Catalog Database ID");
                      ("key", PInt 7) ];
                   PDict [ ("type", PStr "uniqueKey");
                           ("scheme", PStr "CRC Library Number");
                           ("key", PStr "D123") ] ]).
Proof.
  split.
  - apply (crc_identifiers_shape (PInt 7) "core"
             (core_properties PNone (PStr "0500112345") PNone PNone)
             PNone (PStr "0500112345")); reflexivity.
  - apply (crc_identifiers_shape (PInt 7) "core"
             (core_properties (PStr "D123") PNone PNone PNone)
             (PStr "D123") PNone); reflexivity.
Defined.

Lemma unknown_sample_type_KeyError_sample :
  crc_identifiers (PInt 7) "rock" (core_properties PNone PNone PNone PNone)
  = raise KeyError
  /\ crc_body sample_float_str sample_float_str "rock"
       (core_properties PNone PNone PNone PNone) PNone PNone
     = raise KeyError
  /\ sb_item sample_float_str sample_float_str "rock"
       (core_record PNone PNone) PNone PNone PNone
     = raise KeyError.
Proof.
  destruct (unknown_sample_type_KeyError sample_float_str sample_float_str "rock"
              (PInt 7) (core_properties PNone PNone PNone PNone) PNone PNone PNone)
    as (Hids & Hbody & _); [discriminate | discriminate |].
  destruct (unknown_sample_type_KeyError sample_float_str sample_float_str "rock"
              (PInt 7) (core_record PNone PNone) PNone PNone PNone)
    as (_ & _ & Hitem); [discriminate | discriminate |].
  split; [exact Hids | split; [exact Hbody | exact Hitem]].
Defined.

Lemma crc_identifiers_missing_field_sample :
  crc_identifiers (PInt 7) "cutting" (PDict [("chlibno", PStr "C9")]) = raise KeyError.
Proof.
  apply (crc_identifiers_missing_field (PInt 7) "cutting" "chlibno" "apinum"
           [("chlibno", PStr "C9")]); [reflexivity | reflexivity | right; reflexivity].
Defined.

Lemma crc_weblinks_entries_sample :
  crc_weblinks sample_float_str "core" (PInt 7)
    (PDict [("photos", PList [PStr "/photos/1.jpg"; PStr "/photos/2.jpg"])])
  = ok (PList [ PDict [ ("type", PStr "webLink");
                      ("typeLabel", PStr "Web Link");
                      ("uri", PStr "https://my.usgs.gov/crcwc/core/report/7");
                      ("rel", PStr "related");
                      ("title", PStr "Core Research Center Well Catalog Web Page");
                      ("hidden", PBool false);
                      ("itemWebLinkTypeId", PStr "4f4e475de4b07f02db47debf") ];
                PDict [ ("type", PStr "download");
                      ("typeLabel", PStr "Photo");
                      ("uri", PStr "/photos/1.jpg");
                      ("rel", PStr "related");
                      ("title", PStr "Core Research Center Photo 1.jpg");
                      ("hidden", PBool false);
                      ("itemWebLinkTypeId", PStr "4f4e475de4b07f02db47dec0") ];
                PDict [ ("type", PStr "download");
                      ("typeLabel", PStr "Photo");
                      ("uri", PStr "/photos/2.jpg");
                      ("rel", PStr "related");
                      ("title", PStr "Core Research Center Photo 2.jpg");
                      ("hidden", PBool false);
                      ("itemWebLinkTypeId", PStr "4f4e475de4b07f02db47dec0") ] ]).
Proof.
  apply (crc_weblinks_entries sample_float_str "core" (PInt 7)
           [("photos", PList [PStr "/photos/1.jpg"; PStr "/photos/2.jpg"])]
           [] ["/photos/1.jpg"; "/photos/2.jpg"]).
  - left. split; reflexivity.
  - right. reflexivity.
Defined.

Lemma crc_weblinks_missing_link_sample :
  crc_weblinks sample_float_str "core" (PInt 7)
    (PDict [("photos", PList [PStr "/photos/1.jpg"; PNone])])
  = raise AttributeError.
Proof.
  apply (crc_weblinks_missing_link sample_float_str "core" (PInt 7)
           [("photos", PList [PStr "/photos/1.jpg"; PNone])]
           [] [Some "/photos/1.jpg"; None]).
  - left. split; reflexivity.
  - right. reflexivity.
  - right. simpl. auto.
Defined.

Lemma crc_body_optional_sections_sample :
  Contains "<h4>Properties from Web Page</h4><div>[1]</div>"
    (match crc_body sample_float_str sample_float_str "core"
             (core_properties (PStr "D123") PNone PNone PNone) (PList [PInt 1]) PNone
     with
     | inr body => body
     | inl _ => ""
     end).
Proof.
  apply (crc_body_optional_sections sample_float_str sample_float_str "core"
           (core_properties (PStr "D123") PNone PNone PNone) (PList [PInt 1]) PNone);
    [reflexivity | discriminate].
Defined.

Lemma crc_tags_no_rock_type_sample :
  crc_tags (PDict [("rocktype", PList []); ("age", PStr "Cretaceous");
                   ("name", PStr "Dakota")])
  = raise IndexError.
Proof.
  apply crc_tags_no_rock_type. reflexivity.
Defined.

Lemma crc_tags_later_None_sample :
  crc_tags (PDict [("rocktype", PList [PStr "sandstone"; PNone]); ("age", PStr "");
                   ("name", PStr "")])
  = raise TypeError.
Proof.
  apply (crc_tags_later_None _ "sandstone" [None]); [reflexivity | now left].
Defined.

Lemma macrostrat_context_failures_sample :
  fst (macrostrat_context sample_float_str (fun _ => raise HTTPError)
         (PFloat float_40) (PFloat float_minus_105) [])
  = raise HTTPError
  /\ fst (macrostrat_context sample_float_str (site_of (PDict [("success", PNone)]))
            (PFloat float_40) (PFloat float_minus_105) [])
     = raise AttributeError.
Proof.
  split.
  - apply (macrostrat_context_failures sample_float_str (fun _ => raise HTTPError)
             (PFloat float_40) (PFloat float_minus_105) []).
    reflexivity.
  - apply (macrostrat_context_failures sample_float_str
             (site_of (PDict [("success", PNone)]))
             (PFloat float_40) (PFloat float_minus_105) [])
      with (r := PDict [("success", PNone)]); reflexivity.
Defined.

Lemma crcwc_items_paging_sample :
  exists url,
    crcwc_items sample_float_str (site_of PNone) "cutting" (PInt 1000) (PInt 2000) []
    = (ok PNone, [(FeatureService, url)])
    /\ Contains "&resultOffset=2000&resultRecordCount=1000&" url.
Proof.
  destruct (crcwc_items_paging sample_float_str (site_of PNone) "cutting"
              (PInt 1000) (PInt 2000) [] (or_intror eq_refl))
    as (url & Hrun & Hurl).
  exists url. split; [exact Hrun | exact Hurl].
Defined.

Lemma extract_crc_data_result_keys_sample :
  exists d,
    fst (extract_crc_data sample_float_str (site_of sample_page) distinct
           (PInt 7) "core" [])
    = ok (PDict d)
    /\ d <> []
    /\ forall k, In k (dict_keys d) -> In k scraped_keys.
Proof.
  destruct (extract_crc_data_result_keys sample_float_str (site_of sample_page)
              distinct (PInt 7) "core" []) as [_ Hresult].
  destruct (fst (extract_crc_data sample_float_str (site_of sample_page) distinct
                   (PInt 7) "core" [])) as [e|v] eqn:Hrun;
    [vm_compute in Hrun; discriminate|].
  destruct (Hresult v eq_refl) as [->|(d & -> & Hne & Hkeys)];
    [vm_compute in Hrun; discriminate|].
  exists d. repeat split; assumption.
Defined.

Lemma scrape_table_replaces_section_sample :
  exists labels target dicts,
    table_labels (NTag "table" ["report2"] []
                    [ NTag "tr" [] []
                        [ cell ["label"] "Sequence"; cell ["label"] "Min Depth";
                          cell ["label"] "Max Depth"; cell ["label"] "View" ];
                      NTag "tr" [] [] [ cell [] "1"; cell [] "100" ] ])
    = Some labels
    /\ target = "thin_sections"
    /\ dicts = [PDict [("Sequence", PStr "1"); ("Min Depth", PStr "100")]]
    /\ labels = ["Sequence"; "Min Depth"; "Max Depth"; "View"].
Proof.
  destruct (scrape_table_replaces_section
              (NTag "table" ["report2"] []
                 [ NTag "tr" [] []
                     [ cell ["label"] "Sequence"; cell ["label"] "Min Depth";
                       cell ["label"] "Max Depth"; cell ["label"] "View" ];
                   NTag "tr" [] [] [ cell [] "1"; cell [] "100" ] ])
              [("thin_sections", PList [PInt 0])]
              [("thin_sections",
                PList [PDict [("Sequence", PStr "1"); ("Min Depth", PStr "100")]])]
              eq_refl)
    as (labels & target & dicts & Hlabels & Hsection & Hdicts & Htarget & _).
  exists labels, target, dicts.
  vm_compute in Hlabels, Hsection. injection Hlabels as <-. injection Hsection as <-.
  vm_compute in Hdicts. injection Hdicts as <-.
  repeat split; reflexivity.
Defined.

Lemma row_cells_wide_row_sample :
  row_cells ["Age"] 0 [cell [] "Cretaceous"; cell [] "Dakota"] [] = raise IndexError.
Proof.
  apply row_cells_wide_row. simpl. lia.
Defined.

Lemma row_cells_pairs_labels_sample :
  row_cells ["Min Depth"; "Max Depth"; "Age"; "Formation"] 0
    [cell [] "100"; NTag "td" [] [] [anchor "view" "/thin/1"]] []
  = ok [("Min Depth", PStr "100"); ("Max Depth", PStr "/thin/1")].
Proof.
  apply (row_cells_pairs_labels ["Min Depth"; "Max Depth"; "Age"; "Formation"]
           [cell [] "100"; NTag "td" [] [] [anchor "view" "/thin/1"]]).
  - repeat constructor; simpl; intuition discriminate.
  - simpl. lia.
Defined.

Lemma crc_weblinks_scraped_anchor_without_href_sample :
  scrape distinct no_href_page = ok (PDict [("photos", PList [PNone])])
  /\ crc_weblinks sample_float_str "core" (PInt 7) (PDict [("photos", PList [PNone])])
     = raise AttributeError.
Proof.
  split; [reflexivity|].
  apply (crc_weblinks_scraped_anchor_without_href sample_float_str distinct distinct_In
           "core" (PInt 7) (PDict [("photos", PList [PNone])]) no_href_page
           (NTag "a" [] [("title", "see photo")] [NText "photo"]));
    [reflexivity | left; vm_compute; auto | reflexivity].
Defined.

Lemma sb_item_members_sample :
  exists d,
    sb_item sample_float_str sample_float_str "core" (core_record PNone PNone)
      PNone PNone sample_context
    = ok (PDict d)
    /\ dict_keys d = fixed_item_keys ++ ["tags"].
Proof.
  destruct (sb_item sample_float_str sample_float_str "core" (core_record PNone PNone)
              PNone PNone sample_context) as [e|item] eqn:H;
    [vm_compute in H; discriminate|].
  destruct (sb_item_members _ _ _ _ _ _ _ _ H) as (d & geometry & -> & Hg & Hkeys).
  exists d. split; [reflexivity|].
  vm_compute in Hg. injection Hg as <-. exact Hkeys.
Defined.

Lemma sb_item_parent_sample :
  match sb_item sample_float_str sample_float_str "cutting"
          (PDict [ ("id", PInt 9);
                   ("properties",
                    PDict [("chlibno", PStr "C9"); ("operator", PStr "Acme Oil");
                           ("apinum", PNone)]);
                   ("geometry", PNone) ])
          PNone PNone PNone
  with
  | inr item => getitem item "parentId" = ok (PStr "4f4e49d8e4b07f02db5df2d2")
  | inl _ => False
  end.
Proof.
  destruct (sb_item _ _ "cutting" _ PNone PNone PNone) as [e|item] eqn:H;
    [vm_compute in H; discriminate|].
  destruct (sb_item_parent _ _ _ _ _ _ _ _ H) as [[Hcore _]|[_ Hparent]];
    [discriminate | exact Hparent].
Defined.

Lemma sb_item_first_identifier_sample :
  exists first rest,
    make_identifier (core_record PNone PNone) = ok first
    /\ match sb_item sample_float_str sample_float_str "core" (core_record PNone PNone)
               PNone PNone PNone
       with
       | inr item => getitem item "identifiers" = ok (PList (first :: rest))
       | inl _ => False
       end.
Proof.
  destruct (sb_item sample_float_str sample_float_str "core" (core_record PNone PNone)
              PNone PNone PNone) as [e|item] eqn:H;
    [vm_compute in H; discriminate|].
  destruct (sb_item_first_identifier _ _ _ _ _ _ _ _ H)
    as (first & rest & Hfirst & Hids).
  exists first, rest. split; [exact Hfirst | exact Hids].
Defined.

Lemma sb_item_from_crcwc_page_overrides_sample :
  sb_item_from_crcwc sample_float_str sample_float_str
    (site_of sample_page) (site_of success_response) distinct
    "core" (core_record PNone PNone) (PStr "from the caller") PNone []
  = sb_item_from_crcwc sample_float_str sample_float_str
      (site_of sample_page) (site_of success_response) distinct
      "core" (core_record PNone PNone) PNone PNone [].
Proof.
  apply (sb_item_from_crcwc_page_overrides sample_float_str sample_float_str
           (site_of sample_page) (site_of success_response) distinct
           "core" (core_record PNone PNone) PNone (PInt 7) sample_page depth_table);
    [reflexivity | reflexivity | vm_compute; auto | reflexivity].
Defined.

Lemma sb_item_from_crcwc_requests_sample :
  exists rest,
    snd (sb_item_from_crcwc sample_float_str sample_float_str
           (site_of empty_page) (site_of success_response) distinct
           "core" (core_record (PFloat float_40) (PFloat float_minus_105))
           PNone PNone [])
    = [] ++ (ReportSite, report_url sample_float_str "core" (PInt 7)) :: rest
    /\ (rest = []
        \/ exists lat lng,
             rest = [(Macrostrat, macrostrat_url sample_float_str lat lng)]).
Proof.
  apply (sb_item_from_crcwc_requests sample_float_str sample_float_str
           (site_of empty_page) (site_of success_response) distinct
           "core" (core_record (PFloat float_40) (PFloat float_minus_105))
           PNone PNone []).
  reflexivity.
Defined.

Lemma sb_item_from_crcwc_latitude_first_sample :
  snd (sb_item_from_crcwc sample_float_str sample_float_str
         (site_of empty_page) (site_of success_response) distinct
         "core" record_without_lng PNone PNone [])
  = [(ReportSite, "https://my.usgs.gov/crcwc/core/report/7")]
  /\ exists item,
       fst (sb_item_from_crcwc sample_float_str sample_float_str
              (site_of empty_page) (site_of success_response) distinct
              "core" record_without_lng PNone PNone [])
       = ok item.
Proof.
  destruct (sb_item_from_crcwc_latitude_first sample_float_str sample_float_str
              (site_of empty_page) (site_of success_response) distinct
              "core" record_without_lng PNone PNone (PInt 7)
              (PDict [ ("libno", PStr "D123"); ("oper", PStr "Acme Oil");
                       ("apiwel", PNone); ("lat", PNone) ])
              PNone PNone []
              [(ReportSite, "https://my.usgs.gov/crcwc/core/report/7")]
              eq_refl eq_refl eq_refl eq_refl) as [Hskip _].
  rewrite (Hskip eq_refl). split; [reflexivity|].
  eexists. reflexivity.
Defined.

Lemma scrape_lists_anchor_targets_sample :
  (exists links,
      getitem (PDict [("photos", PList [PNone])]) "photos" = ok (PList links)
      /\ In PNone links)
  <-> exists anchor,
        In anchor (page_anchors "see photo" no_href_page)
        /\ PNone = py_of_attr (get_attr "href" anchor).
Proof.
  apply (scrape_lists_anchor_targets distinct distinct_In no_href_page
           (PDict [("photos", PList [PNone])]) "photos" "see photo" PNone);
    [reflexivity | left; split; reflexivity].
Defined.
